(** * Leads-Generator: the business normalisation and deduplication pipeline

    A shallow embedding of [app/services/overpass.py], [app/services/geocode.py]
    and [app/main.py], and the properties of the specification proved (or
    refuted) on it.

    Conventions of the embedding.
    - A Python [str] is a [string]: the character with code [n] stands for the
      code point U+00[n], so the model covers exactly the strings over
      U+0000..U+00FF.  On that alphabet [str.lower], [str.isspace],
      [str.isdigit] and the UTF-8 encoding are the total functions below, and
      the alphabet is closed under every operation the program applies.
    - [Optional[T]] is [option T]; a [Dict[str, str]] is a [gmap string string];
      a [set] of strings is a [gset string].
    - A Python [float] is a primitive binary64 [float].
    - Exceptions are values of [exn]; a call that may raise returns a [result].
    - The network is an oracle indexed by the number of requests already sent;
      the requests sent and the pauses taken are recorded in a [world]. *)

From Stdlib Require Import ZArith NArith Ascii String List Bool Lia.
From Stdlib Require Import PrimFloat FloatOps SpecFloat FloatAxioms DecimalString.
From stdpp Require Import base option gmap strings list sorting.
From Equations Require Import Equations.

Local Open Scope string_scope.
Local Open Scope Z_scope.

(** ** Python strings *)

Module Py.

Definition code (c : ascii) : Z := Z.of_N (N_of_ascii c).
Definition chr (n : Z) : ascii := ascii_of_N (Z.to_N n).

(** [str.isspace] on one character: TAB..CR, FS..US, SPACE, NEL, NBSP. *)
Definition isspace (c : ascii) : bool :=
  let n := code c in
  ((9 <=? n) && (n <=? 13)) || ((28 <=? n) && (n <=? 32))
  || (n =? 133) || (n =? 160).

(** [str.isdigit] on one character: 0..9 and the superscripts 1, 2, 3. *)
Definition isdigit (c : ascii) : bool :=
  let n := code c in
  ((48 <=? n) && (n <=? 57)) || (n =? 178) || (n =? 179) || (n =? 185).

(** [str.lower] on one character: A..Z and U+00C0..U+00DE except the
    multiplication sign. *)
Definition lower_char (c : ascii) : ascii :=
  let n := code c in
  if ((65 <=? n) && (n <=? 90))
     || ((192 <=? n) && (n <=? 222) && negb (n =? 215))
  then chr (n + 32) else c.

Fixpoint lower (s : string) : string :=
  match s with
  | EmptyString => EmptyString
  | String c s' => String (lower_char c) (lower s')
  end.

Definition is_empty (s : string) : bool :=
  match s with EmptyString => true | _ => false end.

Fixpoint lstrip (s : string) : string :=
  match s with
  | EmptyString => EmptyString
  | String c s' => if isspace c then lstrip s' else s
  end.

Fixpoint rstrip (s : string) : string :=
  match s with
  | EmptyString => EmptyString
  | String c s' =>
      let r := rstrip s' in
      if isspace c && is_empty r then EmptyString else String c r
  end.

Definition strip (s : string) : string := rstrip (lstrip s).

(** [s.split()]: the maximal runs of non-space characters, in order.  [w] is
    the word being read. *)
Fixpoint split_from (w : string) (s : string) : list string :=
  match s with
  | EmptyString => if is_empty w then [] else [w]
  | String c s' =>
      if isspace c
      then (if is_empty w then split_from EmptyString s'
            else w :: split_from EmptyString s')
      else split_from (w ++ String c EmptyString) s'
  end.

Definition split (s : string) : list string := split_from EmptyString s.

(** [sep.join(l)]. *)
Definition join (sep : string) (l : list string) : string := String.concat sep l.

(** [s.replace(c, '')] for a one-character [c]. *)
Fixpoint remove_char (c : ascii) (s : string) : string :=
  match s with
  | EmptyString => EmptyString
  | String d s' =>
      if Ascii.eqb c d then remove_char c s' else String d (remove_char c s')
  end.

(** [''.join(c for c in s if p(c))]. *)
Fixpoint filter_chars (p : ascii -> bool) (s : string) : string :=
  match s with
  | EmptyString => EmptyString
  | String c s' =>
      if p c then String c (filter_chars p s') else filter_chars p s'
  end.

Fixpoint all_chars (p : ascii -> bool) (s : string) : bool :=
  match s with
  | EmptyString => true
  | String c s' => p c && all_chars p s'
  end.

Definition startswith (p s : string) : bool := String.prefix p s.

(** [c in s] for a one-character [c]. *)
Fixpoint has_char (c : ascii) (s : string) : bool :=
  match s with
  | EmptyString => false
  | String d s' => Ascii.eqb c d || has_char c s'
  end.

(** [s[n:]]. *)
Fixpoint drop (n : nat) (s : string) : string :=
  match n, s with
  | O, _ => s
  | S n', String _ s' => drop n' s'
  | S _, EmptyString => EmptyString
  end.

Definition len (s : string) : Z := Z.of_nat (String.length s).

(** Truth value of an [Optional[str]]: [None] and [''] are false. *)
Definition truthy (o : option string) : bool :=
  match o with
  | Some s => negb (is_empty s)
  | None => false
  end.

(** [a or b] on optional strings. *)
Definition or_else (a b : option string) : option string :=
  if truthy a then a else b.

(** [o or ''] *)
Definition or_empty (o : option string) : string :=
  match o with
  | Some s => s
  | None => EmptyString
  end.

(** [str(z)] for an [int]. *)
Definition str_of_int (z : Z) : string := NilZero.string_of_int (Z.to_int z).

(** [s.encode()]: UTF-8, one byte below U+0080 and two bytes from there on. *)
Fixpoint encode (s : string) : list Z :=
  match s with
  | EmptyString => []
  | String c s' =>
      let n := code c in
      if n <? 128 then n :: encode s'
      else (192 + n / 64) :: (128 + n mod 64) :: encode s'
  end.

End Py.

(** ** MD5 ([hashlib.md5(...).hexdigest()]) *)

Module MD5.

Definition w32 (x : Z) : Z := x mod 4294967296.

Definition rotl (x : Z) (n : Z) : Z :=
  w32 (Z.lor (Z.shiftl x n) (Z.shiftr x (32 - n))).

Definition not32 (x : Z) : Z := Z.lxor x 4294967295.

(** The sine table: [K i = floor (2^32 * |sin (i + 1)|)]. *)
Definition K : list Z :=
  [ 0xd76aa478; 0xe8c7b756; 0x242070db; 0xc1bdceee;
    0xf57c0faf; 0x4787c62a; 0xa8304613; 0xfd469501;
    0x698098d8; 0x8b44f7af; 0xffff5bb1; 0x895cd7be;
    0x6b901122; 0xfd987193; 0xa679438e; 0x49b40821;
    0xf61e2562; 0xc040b340; 0x265e5a51; 0xe9b6c7aa;
    0xd62f105d; 0x02441453; 0xd8a1e681; 0xe7d3fbc8;
    0x21e1cde6; 0xc33707d6; 0xf4d50d87; 0x455a14ed;
    0xa9e3e905; 0xfcefa3f8; 0x676f02d9; 0x8d2a4c8a;
    0xfffa3942; 0x8771f681; 0x6d9d6122; 0xfde5380c;
    0xa4beea44; 0x4bdecfa9; 0xf6bb4b60; 0xbebfbc70;
    0x289b7ec6; 0xeaa127fa; 0xd4ef3085; 0x04881d05;
    0xd9d4d039; 0xe6db99e5; 0x1fa27cf8; 0xc4ac5665;
    0xf4292244; 0x432aff97; 0xab9423a7; 0xfc93a039;
    0x655b59c3; 0x8f0ccc92; 0xffeff47d; 0x85845dd1;
    0x6fa87e4f; 0xfe2ce6e0; 0xa3014314; 0x4e0811a1;
    0xf7537e82; 0xbd3af235; 0x2ad7d2bb; 0xeb86d391 ].

(** Per-round rotation amounts. *)
Definition R : list Z :=
  [ 7; 12; 17; 22; 7; 12; 17; 22; 7; 12; 17; 22; 7; 12; 17; 22;
    5; 9; 14; 20; 5; 9; 14; 20; 5; 9; 14; 20; 5; 9; 14; 20;
    4; 11; 16; 23; 4; 11; 16; 23; 4; 11; 16; 23; 4; 11; 16; 23;
    6; 10; 15; 21; 6; 10; 15; 21; 6; 10; 15; 21; 6; 10; 15; 21 ].

Record state := St { sa : Z; sb : Z; sc : Z; sd : Z }.

Definition init : state :=
  St 0x67452301 0xefcdab89 0x98badcfe 0x10325476.

(** Padding: a 1 bit, zeros up to 56 mod 64, then the bit length on 8 bytes,
    least significant first. *)
Definition le_bytes (n : nat) (x : Z) : list Z :=
  List.map (fun i => (Z.shiftr x (8 * Z.of_nat i)) mod 256) (seq 0 n).

Definition pad (msg : list Z) : list Z :=
  let n := Z.of_nat (length msg) in
  let zeros := Z.to_nat ((55 - n) mod 64) in
  msg ++ 128 :: repeat 0 zeros ++ le_bytes 8 ((8 * n) mod 2 ^ 64).

Definition word_of (bs : list Z) : Z :=
  fold_right (fun b acc => b + 256 * acc) 0 bs.

Fixpoint words (n : nat) (bs : list Z) : list Z :=
  match n with
  | O => []
  | S n' => word_of (firstn 4 bs) :: words n' (skipn 4 bs)
  end.

Definition round (m : list Z) (i : nat) (s : state) : state :=
  let '(St a b c d) := s in
  let zi := Z.of_nat i in
  let '(f, g) :=
    if zi <? 16 then (Z.lor (Z.land b c) (Z.land (not32 b) d), zi)
    else if zi <? 32 then
      (Z.lor (Z.land d b) (Z.land (not32 d) c), (5 * zi + 1) mod 16)
    else if zi <? 48 then (Z.lxor b (Z.lxor c d), (3 * zi + 5) mod 16)
    else (Z.lxor c (Z.lor b (not32 d)), (7 * zi) mod 16) in
  let f' := w32 (f + a + nth i K 0 + nth (Z.to_nat g) m 0) in
  St d (w32 (b + rotl f' (nth i R 0))) b c.

Definition block (s : state) (bs : list Z) : state :=
  let m := words 16 bs in
  let '(St a b c d) := fold_left (fun st i => round m i st) (seq 0 64) s in
  St (w32 (sa s + a)) (w32 (sb s + b)) (w32 (sc s + c)) (w32 (sd s + d)).

Fixpoint blocks (n : nat) (s : state) (bs : list Z) : state :=
  match n with
  | O => s
  | S n' => blocks n' (block s (firstn 64 bs)) (skipn 64 bs)
  end.

Definition digest (msg : list Z) : list Z :=
  let p := pad msg in
  let '(St a b c d) := blocks (length p / 64) init p in
  le_bytes 4 a ++ le_bytes 4 b ++ le_bytes 4 c ++ le_bytes 4 d.

Definition hex_digit (n : Z) : ascii :=
  if n <? 10 then Py.chr (48 + n) else Py.chr (87 + n).

Fixpoint hex (bs : list Z) : string :=
  match bs with
  | [] => EmptyString
  | b :: bs' => String (hex_digit (b / 16)) (String (hex_digit (b mod 16)) (hex bs'))
  end.

Definition hexdigest (msg : list Z) : string := hex (digest msg).

End MD5.

(** ** A small backtracking matcher for the two patterns of [clean_business_name]

    The patterns used by the program are sequences of single-character
    classes, each taken once or under a greedy star, closed by the end
    anchor.  [match_here] tries the alternatives in the order of Python's
    [re] engine (longest repetition first) and returns what is left of the
    subject after the first successful match. *)

Module Re.

Inductive cls :=
| Space                (* \s *)
| Chr (c : ascii)      (* a literal character *)
| Not (c : ascii).     (* [^c] *)

Inductive item :=
| One (k : cls)
| Star (k : cls)
| Eol.                 (* $ *)

Definition in_cls (k : cls) (c : ascii) : bool :=
  match k with
  | Space => Py.isspace c
  | Chr d => Ascii.eqb d c
  | Not d => negb (Ascii.eqb d c)
  end.

Definition newline : string := String (Py.chr 10) EmptyString.

(** The end anchor holds at the end of the subject and just before a final
    line feed. *)
Definition at_eol (s : string) : bool := Py.is_empty s || String.eqb s newline.

Fixpoint star (k : cls) (cont : string -> option string) (s : string)
  : option string :=
  match s with
  | String c s' =>
      if in_cls k c then
        match star k cont s' with
        | Some r => Some r
        | None => cont s
        end
      else cont s
  | EmptyString => cont s
  end.

Fixpoint match_here (p : list item) (s : string) : option string :=
  match p with
  | [] => Some s
  | One k :: p' =>
      match s with
      | String c s' => if in_cls k c then match_here p' s' else None
      | EmptyString => None
      end
  | Star k :: p' => star k (match_here p') s
  | Eol :: p' => if at_eol s then match_here p' s else None
  end.

(** [re.sub(p, '', s)] for a pattern that matches no empty string: scan the
    subject from the left, delete each match and resume after it.  [skip]
    counts the characters of the current match still to be dropped. *)
Fixpoint sub_del (p : list item) (skip : nat) (s : string) : string :=
  match s with
  | EmptyString => EmptyString
  | String c s' =>
      match skip with
      | S k => sub_del p k s'
      | O =>
          match match_here p s with
          | Some r =>
              match (String.length s - String.length r)%nat with
              | S k => sub_del p k s'
              | O => String c (sub_del p 0 s')
              end
          | None => String c (sub_del p 0 s')
          end
      end
  end.

Definition sub (p : list item) (s : string) : string := sub_del p 0 s.

End Re.

(** ** Field normalisers *)

(** [normalize_phone] *)
Definition normalize_phone (phone : option string) : option string :=
  if negb (Py.truthy phone) then None
  else
    let cleaned :=
      Py.filter_chars (fun c => Py.isdigit c || Ascii.eqb c "+"%char)
                      (Py.or_empty phone) in
    let cleaned :=
      if Py.startswith "00" cleaned then "+" ++ Py.drop 2 cleaned else cleaned in
    let cleaned :=
      if negb (Py.is_empty cleaned) && (Py.len cleaned =? 10)
      then "+91" ++ cleaned else cleaned in
    if Py.is_empty cleaned then None else Some cleaned.

(** The trailing-group patterns [\s*\([^)]*\)\s*$] and [\s*\[[^\]]*\]\s*$]. *)
Definition group_pattern (o c : ascii) : list Re.item :=
  [ Re.Star Re.Space; Re.One (Re.Chr o); Re.Star (Re.Not c);
    Re.One (Re.Chr c); Re.Star Re.Space; Re.Eol ].

Definition double_quote : ascii := Py.chr 34.
Definition single_quote : ascii := Py.chr 39.

(** [clean_business_name] *)
Definition clean_business_name (name : option string) : option string :=
  if negb (Py.truthy name) then None
  else
    let name := Py.join " " (Py.split (Py.strip (Py.or_empty name))) in
    if Py.is_empty name then None
    else
      let name := Re.sub (group_pattern "("%char ")"%char) name in
      let name := Re.sub (group_pattern "["%char "]"%char) name in
      let name :=
        Py.strip (Py.remove_char single_quote (Py.remove_char double_quote name)) in
      if Py.is_empty name then None else Some name.

(** ** The business record *)

Record Business := mkBusiness {
  name : option string;
  category : option string;
  brand : option string;
  contact : option (gmap string string);
  opening_hours : option string;
  address : option (gmap string string);
  latitude : option float;
  longitude : option float;
  source_id : option string
}.

(** Truth value of an [Optional[Dict]]: [None] and [{}] are false. *)
Definition dict_truthy (d : option (gmap string string)) : bool :=
  match d with
  | Some m => negb (bool_decide (m = ∅))
  | None => false
  end.

(** [d.get(k, '')] *)
Definition dict_get (d : gmap string string) (k : string) : string :=
  default EmptyString (d !! k).

(** [str(v).lower().strip() if v else ""] *)
Definition norm_opt (v : option string) : string :=
  if Py.truthy v then Py.strip (Py.lower (Py.or_empty v)) else EmptyString.

Definition norm_str (v : string) : string :=
  if negb (Py.is_empty v) then Py.strip (Py.lower v) else EmptyString.

(** The string that [get_hash_id] digests. *)
Definition key_string (b : Business) : string :=
  let key_parts := [ norm_opt (name b); norm_opt (category b); norm_opt (brand b) ] in
  let key_parts :=
    if dict_truthy (address b) then
      let a := default ∅ (address b) in
      (key_parts ++ [ norm_str (dict_get a "street");
                      norm_str (dict_get a "city");
                      norm_str (dict_get a "postcode") ])%list
    else key_parts in
  Py.join "|" key_parts.

(** [Business.get_hash_id] *)
Definition get_hash_id (b : Business) : string :=
  MD5.hexdigest (Py.encode (key_string b)).

(** The placeholder names of [is_valid].  The source set also holds two CJK
    entries, U+672A U+547D U+540D and U+7121 U+540D; they lie outside the
    alphabet of the model, so no modelled string equals them and membership
    is the same with or without them. *)
Definition generic_names : list string :=
  [ "unknown"; "none"; "null"; ""; "na"; "n/a";
    "restaurant"; "cafe"; "shop"; "store"; "business"; "company" ].

Definition in_names (s : string) (l : list string) : bool :=
  existsb (String.eqb s) l.

(** [Business.is_valid] *)
Definition is_valid (b : Business) : bool :=
  if negb (Py.truthy (name b)) && negb (Py.truthy (brand b)) then false
  else
    let name_lower := Py.strip (Py.lower (Py.or_empty (name b))) in
    if in_names name_lower generic_names || (Py.len name_lower <=? 2) then false
    else true.

(** ** Deduplication *)

(** [get_address_string] *)
Definition get_address_string (business : Business) : string :=
  if negb (dict_truthy (address business)) then EmptyString
  else
    let a := default ∅ (address business) in
    let street_str := norm_str (dict_get a "street") in
    let city_str := norm_str (dict_get a "city") in
    street_str ++ "|" ++ city_str.

(** [sum(1 for v in [b.name, b.contact, b.address] if v)] *)
Definition data_score (b : Business) : Z :=
  (if Py.truthy (name b) then 1 else 0)
  + (if dict_truthy (contact b) then 1 else 0)
  + (if dict_truthy (address b) then 1 else 0).

(** The inner loop of [deduplicate_businesses]: the value of [is_duplicate]
    after scanning the accepted records in order. *)
Fixpoint scan_duplicate (business : Business) (unique : list Business) : bool :=
  match unique with
  | [] => false
  | existing :: rest =>
      let existing_name := Py.lower (Py.or_empty (name existing)) in
      let current_name := Py.lower (Py.or_empty (name business)) in
      if negb (Py.is_empty existing_name) && negb (Py.is_empty current_name)
         && String.eqb existing_name current_name
         && (data_score business <=? data_score existing)
      then true
      else scan_duplicate business rest
  end.

Record dedup_state := mkDedup {
  seen_hashes : gset string;
  seen_combinations : gset string;
  unique_businesses : list Business
}.

Definition combination_key (business : Business) : string :=
  let name_key := Py.strip (Py.lower (Py.or_empty (name business))) in
  name_key ++ "|" ++ get_address_string business.

(** One iteration of the outer loop. *)
Definition dedup_step (st : dedup_state) (business : Business) : dedup_state :=
  if negb (is_valid business) then st
  else
    let business_hash := get_hash_id business in
    if bool_decide (business_hash ∈ seen_hashes st) then st
    else
      let address_key := get_address_string business in
      if bool_decide (combination_key business ∈ seen_combinations st)
         && negb (Py.is_empty address_key)
      then st
      else if scan_duplicate business (unique_businesses st) then st
      else
        mkDedup ({[ business_hash ]} ∪ seen_hashes st)
                ({[ combination_key business ]} ∪ seen_combinations st)
                (unique_businesses st ++ [business])%list.

(** [deduplicate_businesses] *)
Definition deduplicate_businesses (businesses : list Business) : list Business :=
  unique_businesses (fold_left dedup_step businesses (mkDedup ∅ ∅ [])).

(** ** Exceptions, results and the outside world *)

Inductive exn :=
| ValueError (msg : string)
| TypeError (msg : string)
| OverflowError (msg : string)
| HTTPError (status : Z) (text : string)
| RequestException (text : string)
| Exception (msg : string).

(** [str(e)] *)
Definition exn_text (e : exn) : string :=
  match e with
  | ValueError m | TypeError m | OverflowError m | Exception m => m
  | HTTPError _ t | RequestException t => t
  end.

Inductive result (A : Type) :=
| Return (a : A)
| Raise (e : exn).
Arguments Return {A} a.
Arguments Raise {A} e.

(** An argument that the program only ever hands to [float()], given by what
    [float()] does with it: a float for a float, an int in range or a numeric
    string; [ValueError] for a malformed string; [TypeError] for [None] and
    other non-numbers; [OverflowError] for an int beyond the float range. *)
Inductive float_arg :=
| FloatOk (f : float)
| FloatValueError
| FloatTypeError
| FloatOverflowError.

Record Center := mkCenter { c_lat : option float; c_lon : option float }.

(** One element of the Overpass answer. *)
Record Element := mkElement {
  el_type : string;
  el_id : option Z;
  el_tags : option (gmap string string);
  el_lat : option float;
  el_lon : option float;
  el_center : option Center
}.

(** What one POST to the Overpass endpoint does: answer a JSON object (with
    or without its [elements] key) or raise one of the exceptions that
    [make_overpass_request] handles. *)
Inductive reply :=
| ReplyJson (elements : option (list Element))
| ReplyTimeout
| ReplyHTTPError (status : Z) (text : string)
| ReplyRequestException (text : string).

(** The effects of a run: queries posted, pauses taken (seconds), lines
    printed; the latest last. *)
Record world := mkWorld {
  posts : list string;
  sleeps : list Z;
  stdout : list string
}.

Definition world0 : world := mkWorld [] [] [].

Definition post (q : string) (w : world) : world :=
  mkWorld (posts w ++ [q])%list (sleeps w) (stdout w).
Definition sleep (t : Z) (w : world) : world :=
  mkWorld (posts w) (sleeps w ++ [t])%list (stdout w).
Definition print (l : string) (w : world) : world :=
  mkWorld (posts w) (sleeps w) (stdout w ++ [l])%list.

Definition MAX_RETRIES : Z := 3.

(** [make_overpass_request]: the [n]-th POST of the run is answered by
    [net n]. *)
Equations? make_overpass_request (net : nat -> reply) (query : string)
    (retry_count : Z) (w : world) : result (option (list Element)) * world
  by wf (Z.to_nat (MAX_RETRIES - retry_count)) lt :=
make_overpass_request net query retry_count w with net (length (posts w)) => {
  | ReplyJson data => (Return data, post query w);
  | ReplyTimeout with Z_lt_dec retry_count MAX_RETRIES => {
      | left _ =>
          make_overpass_request net query (retry_count + 1)
            (sleep (2 ^ retry_count) (post query w));
      | right _ =>
          (Raise (Exception "Overpass API timeout after multiple retries"),
           post query w) };
  | ReplyHTTPError status text with Z_lt_dec retry_count MAX_RETRIES => {
      | left _ =>
          let wait_time := 30 * (retry_count + 1) in
          make_overpass_request net query (retry_count + 1)
            (sleep wait_time
               (print ("HTTP error " ++ Py.str_of_int status ++ ". Waiting "
                       ++ Py.str_of_int wait_time ++ " seconds...")
                  (post query w)));
      | right _ =>
          (Raise (Exception ("Overpass API error: " ++ text)), post query w) };
  | ReplyRequestException text with Z_lt_dec retry_count MAX_RETRIES => {
      | left _ =>
          make_overpass_request net query (retry_count + 1)
            (sleep 2 (post query w));
      | right _ =>
          (Raise (Exception ("Failed to connect to Overpass API: " ++ text)),
           post query w) } }.
Proof. all: unfold MAX_RETRIES in *; lia. Qed.

(** [float(x)] *)
Definition float_of (x : float_arg) : result float :=
  match x with
  | FloatOk f => Return f
  | FloatValueError => Raise (ValueError "could not convert string to float")
  | FloatTypeError =>
      Raise (TypeError "float() argument must be a string or a real number")
  | FloatOverflowError => Raise (OverflowError "int too large to convert to float")
  end.

(** [int(f)]: truncation towards zero. *)
Definition int_of_float (f : float) : result Z :=
  match Prim2SF f with
  | S754_nan => Raise (ValueError "cannot convert float NaN to integer")
  | S754_infinity _ =>
      Raise (OverflowError "cannot convert float infinity to integer")
  | S754_zero _ => Return 0
  | S754_finite s m e =>
      let v := if 0 <=? e then Z.pos m * 2 ^ e else Z.pos m / 2 ^ (- e) in
      Return (if s then - v else v)
  end.

(** Truth value of a float: every float but the two zeros. *)
Definition float_truthy (f : float) : bool := negb (PrimFloat.eqb f 0).

(** [a or b] on optional floats. *)
Definition float_or (a b : option float) : option float :=
  match a with
  | Some f => if float_truthy f then a else b
  | None => b
  end.

(** The values of a serialised record. *)
Inductive pyval :=
| VStr (s : string)
| VDict (d : gmap string string)
| VFloat (f : float).

(** [list.sort(key=...)]: the stable sort by string key. *)
Fixpoint insert_by {A} (key : A -> string) (x : A) (l : list A) : list A :=
  match l with
  | [] => [x]
  | y :: l' =>
      if String.ltb (key y) (key x) then y :: insert_by key x l'
      else x :: y :: l'
  end.

Definition sort_by {A} (key : A -> string) (l : list A) : list A :=
  fold_right (insert_by key) [] l.

Definition niche_mapping : gmap string string :=
  list_to_map
    [ ("restaurant", "restaurant"); ("cafe", "cafe"); ("coffee", "cafe");
      ("coffee shop", "cafe"); ("hotel", "hotel"); ("motel", "motel");
      ("pharmacy", "pharmacy"); ("drugstore", "pharmacy");
      ("hospital", "hospital"); ("clinic", "clinic"); ("bank", "bank");
      ("atm", "atm"); ("supermarket", "supermarket");
      ("grocery", "supermarket"); ("mall", "mall"); ("shopping", "shop");
      ("store", "shop"); ("gas", "fuel"); ("gas station", "fuel");
      ("petrol", "fuel"); ("petrol pump", "fuel"); ("school", "school");
      ("university", "university"); ("college", "college") ].

Definition contact_keys : list string :=
  [ "contact:phone"; "phone"; "contact:website"; "website";
    "addr:street"; "addr:city" ].

(** [if v: d[k] = v] *)
Definition put_if (k : string) (v : option string) (d : gmap string string)
  : gmap string string :=
  if Py.truthy v then <[ k := Py.or_empty v ]> d else d.

(** [d if d else None] *)
Definition dict_or_none (d : gmap string string) : option (gmap string string) :=
  if bool_decide (d = ∅) then None else Some d.

(** The dictionary built for one record, [None] values left out. *)
Definition to_dict (business : Business) : list (string * pyval) :=
  omap (fun kv : string * option pyval => (fun v => (kv.1, v)) <$> kv.2)
    [ ("name", VStr <$> name business);
      ("category", VStr <$> category business);
      ("brand", VStr <$> brand business);
      ("contact", VDict <$> contact business);
      ("opening_hours", VStr <$> opening_hours business);
      ("address", VDict <$> address business);
      ("latitude", VFloat <$> latitude business);
      ("longitude", VFloat <$> longitude business);
      ("source_id", VStr <$> source_id business) ].

Section Platform.

(** Two library functions are left open: [repr] of a float, as an f-string
    renders it, and [urllib.parse.urlparse], reduced to the scheme and the
    network location it returns ([None] when it raises). *)
Context (float_repr : float -> string).
Context (urlparse : string -> option (string * string)).

(** [normalize_website] *)
Definition normalize_website (website : option string) : option string :=
  if negb (Py.truthy website) then None
  else
    let website := Py.strip (Py.or_empty website) in
    if (Py.len website <? 4) || Py.has_char " "%char website then None
    else
      let website :=
        if negb (Py.startswith "http://" website || Py.startswith "https://" website)
        then "https://" ++ website else website in
      match urlparse website with
      | Some (scheme, netloc) =>
          if negb (Py.is_empty scheme) && negb (Py.is_empty netloc)
          then Some (Py.lower website) else None
      | None => None
      end.

(** The body of the extraction loop of [get_businesses]: the record appended
    to [raw_businesses] for one element, if any. *)
Definition extract (niche : string) (element : Element) : option Business :=
  let tags := default ∅ (el_tags element) in
  let get (k : string) : option string := tags !! k in
  if negb (Py.truthy (get "name")) && negb (Py.truthy (get "brand"))
     && negb (Py.truthy (get "operator"))
     && negb (existsb (fun key => Py.truthy (get key)) contact_keys)
  then None
  else
    let raw_name :=
      Py.or_else (Py.or_else (get "name") (get "brand")) (get "operator") in
    let clean_name := clean_business_name raw_name in
    let category :=
      Py.or_else (Py.or_else (Py.or_else (get "amenity") (get "shop"))
                    (get "tourism")) (Some niche) in
    let phone := normalize_phone (Py.or_else (get "contact:phone") (get "phone")) in
    let website :=
      normalize_website (Py.or_else (get "contact:website") (get "website")) in
    let contact_data := put_if "phone" phone ∅ in
    let contact_data := put_if "website" website contact_data in
    let email := Py.or_else (get "contact:email") (get "email") in
    let contact_data := put_if "email" email contact_data in
    let contact_data := put_if "facebook" (get "contact:facebook") contact_data in
    let contact_data := put_if "instagram" (get "contact:instagram") contact_data in
    let contact := dict_or_none contact_data in
    let address_data := put_if "street" (get "addr:street") ∅ in
    let city :=
      Py.or_else (Py.or_else (get "addr:city") (get "addr:suburb")) (get "addr:town") in
    let address_data := put_if "city" city address_data in
    let address_data := put_if "postcode" (get "addr:postcode") address_data in
    let address_data := put_if "full" (get "addr:full") address_data in
    let address := dict_or_none address_data in
    let lat_coord := float_or (el_lat element) (el_center element ≫= c_lat) in
    let lon_coord := float_or (el_lon element) (el_center element ≫= c_lon) in
    let business :=
      mkBusiness clean_name category (clean_business_name (get "brand"))
        contact (get "opening_hours") address lat_coord lon_coord
        (Some (el_type element ++ "_"
               ++ match el_id element with
                  | Some i => Py.str_of_int i
                  | None => "unknown"
                  end)) in
    if Py.truthy (name business) || Py.truthy (brand business)
    then Some business else None.

Definition dq : string := String double_quote EmptyString.

(** One line of the query: [kind["tag"~"filter", i](around:r,lat,lon);] *)
Definition query_line (kind tag amenity_filter : string) (radius_meters : Z)
    (lat lon : float) : string :=
  "      " ++ kind ++ "[" ++ dq ++ tag ++ dq ++ "~" ++ dq ++ amenity_filter ++ dq
  ++ ", i](around:" ++ Py.str_of_int radius_meters ++ "," ++ float_repr lat
  ++ "," ++ float_repr lon ++ ");" ++ Re.newline.

Definition query_group (tag amenity_filter : string) (radius_meters : Z)
    (lat lon : float) : string :=
  query_line "node" tag amenity_filter radius_meters lat lon
  ++ query_line "way" tag amenity_filter radius_meters lat lon
  ++ query_line "relation" tag amenity_filter radius_meters lat lon.

Definition build_query (amenity_filter : string) (radius_meters : Z)
    (lat lon : float) : string :=
  Re.newline
  ++ "    [out:json][timeout:90];" ++ Re.newline
  ++ "    (" ++ Re.newline
  ++ "      // Primary search by amenity tag" ++ Re.newline
  ++ query_group "amenity" amenity_filter radius_meters lat lon
  ++ "      " ++ Re.newline
  ++ "      // Also search by shop tag for retail businesses" ++ Re.newline
  ++ query_group "shop" amenity_filter radius_meters lat lon
  ++ "      " ++ Re.newline
  ++ "      // Search by tourism tag for hotels, etc." ++ Re.newline
  ++ query_group "tourism" amenity_filter radius_meters lat lon
  ++ "    );" ++ Re.newline
  ++ "    out center tags;" ++ Re.newline
  ++ "    ".

(** The three conversions at the head of [get_businesses], with its handler
    for [ValueError] and [TypeError]. *)
Definition convert_inputs (lat lon radius_km : float_arg)
  : result (float * float * float) :=
  let handler (e : exn) : result (float * float * float) :=
    match e with
    | ValueError _ | TypeError _ => Raise (ValueError "Invalid coordinates or radius")
    | _ => Raise e
    end in
  match float_of lat with
  | Raise e => handler e
  | Return lat =>
      match float_of lon with
      | Raise e => handler e
      | Return lon =>
          match float_of radius_km with
          | Raise e => handler e
          | Return radius_km => Return (lat, lon, radius_km)
          end
      end
  end.

(** [get_businesses] *)
Definition get_businesses (net : nat -> reply)
    (lat lon radius_km : float_arg) (niche : string) (w : world)
  : result (list (list (string * pyval))) * world :=
  match convert_inputs lat lon radius_km with
  | Raise e => (Raise e, w)
  | Return (lat, lon, radius_km) =>
      if Py.is_empty niche || Py.is_empty (Py.strip niche)
      then (Raise (ValueError "Niche parameter is required"), w)
      else if PrimFloat.leb radius_km 0 || PrimFloat.ltb 50 radius_km
      then (Raise (ValueError "Radius must be between 0.1 and 50 km"), w)
      else
        let niche := Py.lower (Py.strip niche) in
        let amenity_filter := default niche (niche_mapping !! niche) in
        match int_of_float (PrimFloat.mul radius_km 1000) with
        | Raise e => (Raise e, w)
        | Return radius_meters =>
            let query := build_query amenity_filter radius_meters lat lon in
            match make_overpass_request net query 0 w with
            | (Raise e, w) =>
                (Return [],
                 print ("Error fetching from Overpass API: " ++ exn_text e) w)
            | (Return data, w) =>
                let raw_businesses := omap (extract niche) (default [] data) in
                let unique_businesses := deduplicate_businesses raw_businesses in
                let unique_businesses :=
                  sort_by (fun x => Py.lower (Py.or_empty (name x)))
                          unique_businesses in
                let results := to_dict <$> unique_businesses in
                (Return results,
                 print ("Found " ++ Py.str_of_int (Z.of_nat (length raw_businesses))
                        ++ " raw businesses, "
                        ++ Py.str_of_int (Z.of_nat (length unique_businesses))
                        ++ " after deduplication") w)
            end
        end
  end.

(** ** The geocoder and the inbound operation *)

(** One hit of the geocoder: its [lat] and [lon] fields, as [float()] takes
    them. *)
Record geo_hit := mkHit { hit_lat : float_arg; hit_lon : float_arg }.

(** What the GET to the geocoder does: the request raises, the status is an
    error one, or a JSON list of hits comes back. *)
Inductive geo_reply :=
| GeoRequestException (text : string)
| GeoHTTPError (status : Z) (text : string)
| GeoJson (hits : list geo_hit).

(** [get_coordinates] *)
Definition get_coordinates (geo : string -> geo_reply) (location : string)
  : result (option (float * float)) :=
  match geo location with
  | GeoRequestException text => Raise (RequestException text)
  | GeoHTTPError status text => Raise (HTTPError status text)
  | GeoJson [] => Return None
  | GeoJson (hit :: _) =>
      match float_of (hit_lat hit) with
      | Raise e => Raise e
      | Return lat =>
          match float_of (hit_lon hit) with
          | Raise e => Raise e
          | Return lon => Return (Some (lat, lon))
          end
      end
  end.

Record response := mkResponse {
  count : Z;
  businesses : list (list (string * pyval))
}.

(** [find_businesses] *)
Definition find_businesses (geo : string -> geo_reply) (net : nat -> reply)
    (niche location : string) (radius_km : float) (w : world)
  : result response * world :=
  match get_coordinates geo location with
  | Raise e => (Raise e, w)
  | Return None => (Return (mkResponse 0 []), w)
  | Return (Some (lat, lon)) =>
      match get_businesses net (FloatOk lat) (FloatOk lon) (FloatOk radius_km)
                           niche w with
      | (Raise e, w) => (Raise e, w)
      | (Return businesses, w) =>
          (Return (mkResponse (Z.of_nat (length businesses)) businesses), w)
      end
  end.

End Platform.

(** ** Auxiliary definitions for the statements *)

(** The decision of one iteration of the deduplication loop, read off the
    accepted list alone. *)
Definition accepts (acc : list Business) (b : Business) : bool :=
  is_valid b
  && negb (bool_decide (get_hash_id b ∈ (get_hash_id <$> acc)))
  && negb (bool_decide (combination_key b ∈ (combination_key <$> acc))
           && negb (Py.is_empty (get_address_string b)))
  && negb (scan_duplicate b acc).

(** [ys] can be accepted one after the other on top of [acc]. *)
Fixpoint chain (acc ys : list Business) : Prop :=
  match ys with
  | [] => True
  | y :: ys' => accepts acc y = true ∧ chain (acc ++ [y]) ys'
  end.

(** The two lookup sets hold exactly the keys of the accepted records. *)
Definition dedup_inv (st : dedup_state) : Prop :=
  seen_hashes st = list_to_set (get_hash_id <$> unique_businesses st)
  ∧ seen_combinations st = list_to_set (combination_key <$> unique_businesses st).

(** The characters [normalize_phone] keeps. *)
Definition phone_char (c : ascii) : bool := Py.isdigit c || Ascii.eqb c "+"%char.

(** [normalize_phone] as the specification words it: of the [+] signs only a
    leading one is kept, and the country code goes before exactly ten
    digits. *)
Definition normalize_phone_spec (phone : option string) : option string :=
  if negb (Py.truthy phone) then None
  else
    let kept := Py.filter_chars phone_char (Py.or_empty phone) in
    let cleaned :=
      match kept with
      | String "+"%char rest => String "+"%char (Py.filter_chars Py.isdigit rest)
      | _ => Py.filter_chars Py.isdigit kept
      end in
    let cleaned :=
      if Py.startswith "00" cleaned then "+" ++ Py.drop 2 cleaned else cleaned in
    let cleaned :=
      if Py.all_chars Py.isdigit cleaned && (Py.len cleaned =? 10)
      then "+91" ++ cleaned else cleaned in
    if Py.is_empty cleaned then None else Some cleaned.

(** [s] is characters other than [c], then [c], then white space only. *)
Fixpoint closes (c : ascii) (s : string) : bool :=
  match s with
  | EmptyString => false
  | String d s' => if Ascii.eqb c d then Py.all_chars Py.isspace s' else closes c s'
  end.

(** [s] is white space, then a group opened by [o] and closed by the first
    [c] after it, then white space only. *)
Definition is_group (o c : ascii) (s : string) : bool :=
  match Py.lstrip s with
  | String d s' => Ascii.eqb o d && closes c s'
  | EmptyString => false
  end.

(** Cut [s] at the first position from which the rest is such a group. *)
Fixpoint strip_group (o c : ascii) (s : string) : string :=
  match s with
  | EmptyString => EmptyString
  | String d s' => if is_group o c s then EmptyString else String d (strip_group o c s')
  end.

Definition collapse (s : string) : string := Py.join " " (Py.split (Py.strip s)).

Definition remove_quotes (s : string) : string :=
  Py.remove_char single_quote (Py.remove_char double_quote s).

Definition some_if_nonempty (s : string) : option string :=
  if Py.is_empty s then None else Some s.

(** [clean_business_name] as the specification words it: white space
    collapsed, one trailing group (round, or else square) stripped, quotes
    removed. *)
Definition clean_business_name_spec (name : option string) : option string :=
  if negb (Py.truthy name) then None
  else
    let t := collapse (Py.or_empty name) in
    let t1 := strip_group "("%char ")"%char t in
    let t := if String.eqb t1 t then strip_group "["%char "]"%char t else t1 in
    some_if_nonempty (remove_quotes t).

(** [clean_business_name] without the pattern matcher: both trailing groups
    are stripped, the round one first, and the result is trimmed again after
    the quotes are removed. *)
Definition clean_business_name_direct (name : option string) : option string :=
  if negb (Py.truthy name) then None
  else
    let t := collapse (Py.or_empty name) in
    if Py.is_empty t then None
    else
      some_if_nonempty
        (Py.strip (remove_quotes
           (strip_group "["%char "]"%char (strip_group "("%char ")"%char t)))).

(** [float(x)] returns. *)
Definition convertible (x : float_arg) : bool :=
  match x with
  | FloatOk _ => true
  | _ => false
  end.

(** The requests that the specification has rejected: a coordinate or the
    radius that does not convert, a blank category, a radius that is not
    strictly greater than 0 or that exceeds 50. *)
Definition invalid_request (lat lon radius_km : float_arg) (niche : string) : Prop :=
  convertible lat = false ∨ convertible lon = false ∨ convertible radius_km = false
  ∨ Py.strip niche = EmptyString
  ∨ ∃ r, radius_km = FloatOk r
         ∧ (PrimFloat.ltb 0 r = false ∨ PrimFloat.ltb 50 r = true).

Definition is_value_error {A} (r : result A) : bool :=
  match r with
  | Raise (ValueError _) => true
  | _ => false
  end.

(** A POST that does not answer. *)
Definition is_failure (r : reply) : bool :=
  match r with
  | ReplyJson _ => false
  | _ => true
  end.

(** Stand-ins for the two open library functions, for closed examples. *)
Definition repr_stub (f : float) : string := "0.0".
Definition urlparse_stub (u : string) : option (string * string) := None.

(** Example data: a bank mapped twice, and the records extracted from it. *)
Definition bank_address : gmap string string :=
  {[ "street" := "MG Road"; "city" := "Pune" ]}.

Definition bank_tags : gmap string string :=
  {[ "name" := "Central Bank"; "amenity" := "bank";
     "addr:street" := "MG Road"; "addr:city" := "Pune" ]}.

Definition bank_element_plain : Element :=
  mkElement "node" (Some 1) (Some bank_tags) None None None.

Definition bank_element_phone : Element :=
  mkElement "node" (Some 2) (Some (<[ "phone" := "9876543210" ]> bank_tags))
            None None None.

Definition bank_plain : Business :=
  mkBusiness (Some "Central Bank") (Some "bank") None None None
    (Some bank_address) None None (Some "node_1").

Definition bank_phone : Business :=
  mkBusiness (Some "Central Bank") (Some "bank") None
    (Some {[ "phone" := "+919876543210" ]}) None
    (Some bank_address) None None (Some "node_2").

Definition bank_bare : Business :=
  mkBusiness (Some "Central Bank") (Some "bank") None None None None
    None None (Some "node_3").

Definition brand_only : Business :=
  mkBusiness None (Some "fuel") (Some "Shell") None None None None None
    (Some "node_4").

(** ** Definitions for the further properties *)

(** The name as the similar-name pass of [deduplicate_businesses] compares
    it: [(b.name or '').lower()]. *)
Definition lower_name (b : Business) : string := Py.lower (Py.or_empty (name b)).

(** The later record has an address and a combination key of its own. *)
Definition distinct_combination (a b : Business) : Prop :=
  dict_truthy (address b) = true -> combination_key a ≠ combination_key b.

(** Of two records with the same lowercased name the later one is the more
    complete. *)
Definition score_grows (a b : Business) : Prop :=
  lower_name a = lower_name b -> data_score a < data_score b.

(** A lowercase hexadecimal digit. *)
Definition is_hex (c : ascii) : bool :=
  let n := Py.code c in
  ((48 <=? n) && (n <=? 57)) || ((97 <=? n) && (n <=? 102)).

(** The street, city and postcode as [get_hash_id] reads them: lowercased
    and trimmed, and all empty for a record without address. *)
Definition address_part (b : Business) (k : string) : string :=
  if dict_truthy (address b) then norm_str (dict_get (default ∅ (address b)) k)
  else EmptyString.

(** Two records agree on what [get_hash_id] reads: name, category and brand
    up to case and surrounding white space; whether the address mapping is
    non-empty (the test [if self.address] decides whether the three address
    parts enter the key at all); and the street, city and postcode of the
    address up to case and surrounding white space. *)
Definition same_identity (a b : Business) : Prop :=
  norm_opt (name a) = norm_opt (name b)
  ∧ norm_opt (category a) = norm_opt (category b)
  ∧ norm_opt (brand a) = norm_opt (brand b)
  ∧ dict_truthy (address a) = dict_truthy (address b)
  ∧ address_part a "street" = address_part b "street"
  ∧ address_part a "city" = address_part b "city"
  ∧ address_part a "postcode" = address_part b "postcode".

(** [d[k]] on a serialised record, [None] for a missing key. *)
Fixpoint dict_lookup (k : string) (d : list (string * pyval)) : option pyval :=
  match d with
  | [] => None
  | (k', v) :: d' => if String.eqb k k' then Some v else dict_lookup k d'
  end.

(** The order of [list.sort] on keys: [a] does not come after [b]. *)
Definition name_le (a b : Business) : Prop :=
  String.ltb (lower_name b) (lower_name a) = false.

(** The keys a contact mapping and an address mapping may hold. *)
Definition contact_fields : list string :=
  [ "phone"; "website"; "email"; "facebook"; "instagram" ].

Definition address_fields : list string :=
  [ "street"; "city"; "postcode"; "full" ].

(** * Checks of the embedding against known values *)

Example md5_empty : MD5.hexdigest (Py.encode "") = "d41d8cd98f00b204e9800998ecf8427e".
Proof. vm_compute. reflexivity. Qed.

Example md5_abc : MD5.hexdigest (Py.encode "abc") = "900150983cd24fb0d6963f7d28e17f72".
Proof. vm_compute. reflexivity. Qed.

Example md5_two_blocks :
  MD5.hexdigest (Py.encode
    "12345678901234567890123456789012345678901234567890123456789012345678901234567890")
  = "57edf4a22be3c955ac49da2e2107b67a".
Proof. vm_compute. reflexivity. Qed.

Example normalize_phone_ten : normalize_phone (Some "9876543210") = Some "+919876543210".
Proof. reflexivity. Qed.

Example clean_business_name_joe :
  clean_business_name (Some "Joe's Cafe (Closed)") = Some "Joes Cafe".
Proof. reflexivity. Qed.

Example clean_business_name_open_inside :
  clean_business_name (Some "A (b (c)") = Some "A"
  /\ clean_business_name (Some "Foo (a) (b)") = Some "Foo (a)"
  /\ clean_business_name (Some "Foo (y) [x]") = Some "Foo (y)"
  /\ clean_business_name (Some "(x)") = None.
Proof. repeat split. Qed.

Example py_string_methods :
  Py.lower "Central BANK" = "central bank"
  /\ Py.lower_char (Py.chr 192) = Py.chr 224
  /\ Py.lower_char (Py.chr 215) = Py.chr 215
  /\ Py.strip "  a b  " = "a b"
  /\ Py.split "  a   b c " = ["a"; "b"; "c"]
  /\ Py.join "|" ["a"; ""; "c"] = "a||c"
  /\ Py.str_of_int 5000 = "5000"
  /\ Py.str_of_int 0 = "0"
  /\ Py.str_of_int (-3) = "-3".
Proof. repeat split. Qed.

Example hash_of_bank :
  key_string bank_plain = "central bank|bank||mg road|pune|"
  /\ get_hash_id bank_plain = "ee9fa9d4217fca4dbd44a05f9dae4766".
Proof. vm_compute. split; reflexivity. Qed.

Example int_of_float_values :
  int_of_float (PrimFloat.mul 2.5 1000) = Return 2500
  /\ int_of_float (PrimFloat.mul 0.001953125 1000) = Return 1
  /\ int_of_float PrimFloat.nan
     = Raise (ValueError "cannot convert float NaN to integer").
Proof. repeat split. Qed.

Example sort_by_stable :
  sort_by fst [("b", 1); ("a", 2); ("b", 3); ("a", 4)]
  = [("a", 2); ("a", 4); ("b", 1); ("b", 3)].
Proof. reflexivity. Qed.

Example retries_exhausted :
  make_overpass_request (fun _ => ReplyTimeout) "q" 0 world0
  = (Raise (Exception "Overpass API timeout after multiple retries"),
     mkWorld ["q"; "q"; "q"; "q"] [1; 2; 4] []).
Proof. vm_compute. reflexivity. Qed.

Example retry_then_answer :
  make_overpass_request
    (fun n => match n with O => ReplyHTTPError 429 "429 Too Many Requests"
                         | _ => ReplyJson (Some []) end) "q" 0 world0
  = (Return (Some []),
     mkWorld ["q"; "q"] [30] ["HTTP error 429. Waiting 30 seconds..."]).
Proof. vm_compute. reflexivity. Qed.

(** * Deduplication *)

Section Dedup.

Local Open Scope list_scope.

Implicit Types (st : dedup_state) (b : Business) (acc ys xs : list Business).

Lemma dedup_inv_init : dedup_inv (mkDedup ∅ ∅ []).
Proof. split; reflexivity. Qed.

(** Under the invariant an iteration appends [b] exactly when [accepts] says
    so, and otherwise leaves the state alone. *)
Lemma dedup_step_accepts st b :
  dedup_inv st ->
  dedup_step st b =
    if accepts (unique_businesses st) b
    then mkDedup ({[ get_hash_id b ]} ∪ seen_hashes st)
                 ({[ combination_key b ]} ∪ seen_combinations st)
                 (unique_businesses st ++ [b])
    else st.
Proof.
  intros [Hh Hc]. unfold dedup_step, accepts.
  destruct (is_valid b); simpl; [|reflexivity].
  rewrite Hh, Hc.
  rewrite (bool_decide_ext (get_hash_id b ∈ list_to_set (get_hash_id <$> unique_businesses st))
             (get_hash_id b ∈ (get_hash_id <$> unique_businesses st)))
    by apply elem_of_list_to_set.
  destruct (bool_decide (get_hash_id b ∈ _)); simpl; [reflexivity|].
  rewrite (bool_decide_ext (combination_key b ∈ list_to_set (combination_key <$> unique_businesses st))
             (combination_key b ∈ (combination_key <$> unique_businesses st)))
    by apply elem_of_list_to_set.
  destruct (bool_decide (combination_key b ∈ _) && _); simpl; [reflexivity|].
  destruct (scan_duplicate b (unique_businesses st)); reflexivity.
Qed.

Lemma dedup_step_inv st b : dedup_inv st -> dedup_inv (dedup_step st b).
Proof.
  intros Hinv. rewrite (dedup_step_accepts _ _ Hinv).
  destruct (accepts _ b); [|assumption].
  destruct Hinv as [Hh Hc]. split; simpl.
  - rewrite Hh, fmap_app, list_to_set_app_L. simpl.
    rewrite union_empty_r_L. apply (comm_L (∪)).
  - rewrite Hc, fmap_app, list_to_set_app_L. simpl.
    rewrite union_empty_r_L. apply (comm_L (∪)).
Qed.

(** A run of the loop appends a chain to the accepted list. *)
Lemma fold_dedup_chain xs st :
  dedup_inv st ->
  ∃ ys, unique_businesses (fold_left dedup_step xs st) = unique_businesses st ++ ys
        ∧ chain (unique_businesses st) ys.
Proof.
  revert st. induction xs as [|x xs IH]; intros st Hinv; simpl.
  - exists []. rewrite app_nil_r. split; [reflexivity | exact I].
  - destruct (IH _ (dedup_step_inv st x Hinv)) as (ys & Hys & Hch).
    rewrite (dedup_step_accepts _ _ Hinv) in Hys, Hch.
    rewrite (dedup_step_accepts _ _ Hinv).
    destruct (accepts (unique_businesses st) x) eqn:Hacc.
    + exists (x :: ys). simpl in *. rewrite Hys, <- app_assoc. auto.
    + exists ys. auto.
Qed.

(** A chain is accepted whole. *)
Lemma fold_dedup_of_chain ys st :
  dedup_inv st -> chain (unique_businesses st) ys ->
  unique_businesses (fold_left dedup_step ys st) = unique_businesses st ++ ys.
Proof.
  revert st. induction ys as [|y ys IH]; intros st Hinv Hch; simpl.
  - by rewrite app_nil_r.
  - destruct Hch as [Hacc Hch].
    pose proof (dedup_step_inv st y Hinv) as Hinv'.
    rewrite (dedup_step_accepts _ _ Hinv) in Hinv' |- *. rewrite Hacc in Hinv' |- *.
    rewrite (IH _ Hinv'); simpl; [by rewrite <- app_assoc | assumption].
Qed.

Lemma deduplicate_chain xs : chain [] (deduplicate_businesses xs).
Proof.
  destruct (fold_dedup_chain xs _ dedup_inv_init) as (ys & Hys & Hch).
  unfold deduplicate_businesses. rewrite Hys. exact Hch.
Qed.

Lemma chain_valid acc ys : chain acc ys -> Forall (fun b => is_valid b = true) ys.
Proof.
  revert acc. induction ys as [|y ys IH]; intros acc Hch; constructor.
  - destruct Hch as [Hacc _]. unfold accepts in Hacc.
    by destruct (is_valid y).
  - destruct Hch as [_ Hch]. eauto.
Qed.

Lemma chain_hashes acc ys :
  chain acc ys -> NoDup (get_hash_id <$> acc) -> NoDup (get_hash_id <$> (acc ++ ys)).
Proof.
  revert acc. induction ys as [|y ys IH]; intros acc Hch Hnd.
  - by rewrite app_nil_r.
  - destruct Hch as [Hacc Hch].
    replace (acc ++ y :: ys) with ((acc ++ [y]) ++ ys) by (by rewrite <- app_assoc).
    apply IH; [assumption|].
    rewrite fmap_app. apply NoDup_app. split_and!; [assumption | | apply NoDup_singleton].
    intros h Hin Hin'. apply list_elem_of_singleton in Hin'. subst h.
    unfold accepts in Hacc.
    rewrite !andb_true_iff, !negb_true_iff in Hacc.
    destruct Hacc as [[[_ Hh] _] _].
    apply bool_decide_eq_false in Hh. contradiction.
Qed.

End Dedup.

(** C2. Deduplication is idempotent: running [deduplicate_businesses] on its
    own output returns that output unchanged, for every list of candidate
    records. *)
Theorem deduplicate_idempotent (businesses : list Business) :
  deduplicate_businesses (deduplicate_businesses businesses)
  = deduplicate_businesses businesses.
Proof.
  unfold deduplicate_businesses at 1.
  rewrite (fold_dedup_of_chain _ _ dedup_inv_init (deduplicate_chain businesses)).
  reflexivity.
Qed.

(** C3. In the output of [deduplicate_businesses] the identity hashes of the
    records are pairwise different: no hash occurs at two positions. *)
Theorem deduplicate_hashes_distinct (businesses : list Business) :
  NoDup (get_hash_id <$> deduplicate_businesses businesses).
Proof.
  apply (chain_hashes [] _ (deduplicate_chain businesses)). constructor.
Qed.

(** C4. Every record in the output of [deduplicate_businesses] satisfies
    [is_valid]: it has a name or a brand, its lowercased trimmed name is not
    a generic placeholder, and that name is longer than two characters. *)
Theorem deduplicate_all_valid (businesses : list Business) :
  Forall (fun b =>
            is_valid b = true
            ∧ (Py.truthy (name b) = true ∨ Py.truthy (brand b) = true)
            ∧ in_names (Py.strip (Py.lower (Py.or_empty (name b)))) generic_names = false
            ∧ 2 < Py.len (Py.strip (Py.lower (Py.or_empty (name b)))))
         (deduplicate_businesses businesses).
Proof.
  eapply Forall_impl; [apply (chain_valid [] _ (deduplicate_chain businesses))|].
  intros b Hv. split; [assumption|]. unfold is_valid in Hv.
  destruct (negb (Py.truthy (name b)) && negb (Py.truthy (brand b))) eqn:Hnb;
    [discriminate|].
  destruct (in_names _ generic_names) eqn:Hgen; simpl in Hv; [discriminate|].
  destruct (Z.leb_spec (Py.len (Py.strip (Py.lower (Py.or_empty (name b))))) 2);
    [discriminate|].
  split_and!; [|reflexivity|lia].
  destruct (Py.truthy (name b)), (Py.truthy (brand b)); simpl in Hnb;
    try discriminate; auto.
Qed.

(** C9. A record whose name is absent (null or empty) is invalid even when it
    carries a brand: the placeholder and length checks run on the empty
    name, which is itself one of the placeholders. *)
Theorem is_valid_brand_only (b : Business) :
  name b = None ∨ name b = Some EmptyString ->
  Py.truthy (brand b) = true ->
  Py.strip (Py.lower (Py.or_empty (name b))) = EmptyString
  ∧ in_names EmptyString generic_names = true
  ∧ is_valid b = false.
Proof.
  intros Hname Hbrand.
  assert (Hempty : Py.or_empty (name b) = EmptyString)
    by (destruct Hname as [-> | ->]; reflexivity).
  split_and!.
  - rewrite Hempty. reflexivity.
  - reflexivity.
  - unfold is_valid. rewrite Hempty, Hbrand.
    destruct (Py.truthy (name b)); reflexivity.
Qed.

Lemma is_valid_brand_only_witness :
  name brand_only = None ∧ Py.truthy (brand brand_only) = true
  ∧ is_valid brand_only = false.
Proof.
  split_and!; [reflexivity | reflexivity |].
  apply (is_valid_brand_only brand_only); [left; reflexivity | reflexivity].
Defined.

(** C10. Deduplication does not make names unique.  An iteration of the loop
    only ever appends to the accepted list, so an accepted record is never
    replaced; and for some input the output holds two different records with
    the same lowercased name, the later one with the strictly higher
    completeness score. *)
Theorem deduplicate_keeps_same_name :
  (∀ st b, unique_businesses st `prefix_of` unique_businesses (dedup_step st b))
  ∧ ∃ businesses (i j : nat) b1 b2,
      (i < j)%nat
      ∧ deduplicate_businesses businesses !! i = Some b1
      ∧ deduplicate_businesses businesses !! j = Some b2
      ∧ b1 ≠ b2
      ∧ Py.lower (Py.or_empty (name b1)) = Py.lower (Py.or_empty (name b2))
      ∧ get_hash_id b1 ≠ get_hash_id b2
      ∧ data_score b1 < data_score b2.
Proof.
  split.
  - intros st b. unfold dedup_step.
    repeat match goal with |- context [if ?c then _ else _] => destruct c end;
      simpl; try reflexivity.
    by apply prefix_app_r.
  - exists [bank_bare; bank_plain], 0%nat, 1%nat, bank_bare, bank_plain.
    split_and!.
    + lia.
    + vm_compute. reflexivity.
    + vm_compute. reflexivity.
    + intros H. apply (f_equal address) in H. discriminate H.
    + reflexivity.
    + vm_compute. discriminate.
    + reflexivity.
Qed.

(** C1 (the behaviour of the code in the scenario).  Two elements for
    "Central Bank" at the same address, the first without contact data and
    the second with a phone number, are extracted into two records with the
    same identity hash, and deduplication keeps the first one: the record
    without the phone number. *)
Theorem bank_scenario_keeps_first
    (float_repr : float -> string) (urlparse : string -> option (string * string)) :
  omap (extract urlparse "bank") [bank_element_plain; bank_element_phone]
  = [bank_plain; bank_phone]
  ∧ get_hash_id bank_plain = get_hash_id bank_phone
  ∧ deduplicate_businesses [bank_plain; bank_phone] = [bank_plain]
  ∧ contact bank_plain = None
  ∧ contact bank_phone = Some {[ "phone" := "+919876543210" ]}
  ∧ (get_businesses float_repr urlparse
       (fun _ => ReplyJson (Some [bank_element_plain; bank_element_phone]))
       (FloatOk 18.5%float) (FloatOk 73.75%float) (FloatOk 2%float) "bank" world0).1
    = Return [to_dict bank_plain].
Proof.
  split_and!; try reflexivity; vm_compute; reflexivity.
Qed.

(** * Field normalisers *)

Section Characters.

Lemma all_chars_filter p s : Py.all_chars p (Py.filter_chars p s) = true.
Proof.
  induction s as [|c s IH]; simpl; [reflexivity|].
  destruct (p c) eqn:Hc; simpl; [rewrite Hc|]; assumption.
Qed.

Lemma all_chars_drop p n s :
  Py.all_chars p s = true -> Py.all_chars p (Py.drop n s) = true.
Proof.
  revert s. induction n as [|n IH]; intros s Hs; [assumption|].
  destruct s as [|c s]; simpl; [reflexivity|].
  simpl in Hs. apply andb_true_iff in Hs as [_ Hs]. auto.
Qed.

Lemma all_chars_app p a b :
  Py.all_chars p (a ++ b) = Py.all_chars p a && Py.all_chars p b.
Proof.
  induction a as [|c a IH]; simpl; [reflexivity|].
  rewrite IH. apply andb_assoc.
Qed.

Lemma is_empty_false s : Py.is_empty s = false <-> s ≠ EmptyString.
Proof. destruct s; simpl; split; congruence. Qed.

Lemma len_eqb s (n : nat) : (Py.len s =? Z.of_nat n) = bool_decide (String.length s = n).
Proof.
  unfold Py.len. case_bool_decide as H.
  - rewrite H. apply Z.eqb_refl.
  - apply Z.eqb_neq. lia.
Qed.

End Characters.

(** C5, counterexample.  On "1+2" the specification's wording keeps "12",
    the [+] not being a leading one; the program keeps every [+] and returns
    "1+2". *)
Lemma normalize_phone_inner_plus :
  normalize_phone (Some "1+2") = Some "1+2"
  ∧ normalize_phone_spec (Some "1+2") = Some "12"
  ∧ normalize_phone (Some "1+2") ≠ normalize_phone_spec (Some "1+2").
Proof. split_and!; [reflexivity | reflexivity | discriminate]. Qed.

(** C5, as amended.  [normalize_phone] keeps the digits and every [+] sign,
    wherever it stands, and drops all other characters; a leading "00" of
    what is kept becomes "+"; when the outcome is exactly ten digits "+91"
    is put in front, and an outcome of any other length is returned as it
    is; the result is null for a null or empty input and for an empty
    outcome, and never an empty string.  The three values of the
    specification hold. *)
Theorem normalize_phone_cleans (raw : string) :
  let kept := Py.filter_chars phone_char raw in
  let cleaned := if Py.startswith "00" kept then "+" ++ Py.drop 2 kept else kept in
  normalize_phone None = None
  ∧ (cleaned = EmptyString -> normalize_phone (Some raw) = None)
  ∧ (Py.all_chars Py.isdigit cleaned = true -> String.length cleaned = 10%nat ->
     normalize_phone (Some raw) = Some ("+91" ++ cleaned))
  ∧ (cleaned ≠ EmptyString -> String.length cleaned ≠ 10%nat ->
     normalize_phone (Some raw) = Some cleaned)
  ∧ (∀ out, normalize_phone (Some raw) = Some out ->
       out ≠ EmptyString ∧ Py.all_chars phone_char out = true)
  ∧ normalize_phone (Some "9876543210") = Some "+919876543210"
  ∧ normalize_phone (Some "00919876543210") = Some "+919876543210"
  ∧ normalize_phone (Some "") = None.
Proof.
  intros kept cleaned.
  assert (Hkept : Py.all_chars phone_char cleaned = true).
  { subst cleaned. destruct (Py.startswith "00" kept); [|apply all_chars_filter].
    rewrite all_chars_app, all_chars_drop by apply all_chars_filter.
    reflexivity. }
  assert (Hnp : normalize_phone (Some raw) =
                if Py.is_empty cleaned then None
                else if bool_decide (String.length cleaned = 10%nat)
                     then Some ("+91" ++ cleaned) else Some cleaned).
  { unfold normalize_phone. destruct raw as [|c raw]; [reflexivity|].
    change (Py.truthy (Some (String c raw))) with true. cbv beta iota zeta.
    change (negb true) with false. cbv iota.
    change (Py.or_empty (Some (String c raw))) with (String c raw).
    fold phone_char. fold kept. fold cleaned.
    change 10 with (Z.of_nat 10). rewrite len_eqb.
    destruct (Py.is_empty cleaned) eqn:He; cbn [negb andb]; rewrite ?He;
      [reflexivity|].
    case_bool_decide; [|by rewrite He].
    change (Py.is_empty ("+91" ++ cleaned)) with false. reflexivity. }
  split_and!; try reflexivity.
  - intros ->. rewrite Hnp. reflexivity.
  - intros _ Hlen. rewrite Hnp, bool_decide_eq_true_2 by assumption.
    destruct cleaned; [discriminate Hlen | reflexivity].
  - intros Hne Hlen. rewrite Hnp, bool_decide_eq_false_2 by assumption.
    apply is_empty_false in Hne. rewrite Hne. reflexivity.
  - intros out. rewrite Hnp.
    destruct (Py.is_empty cleaned) eqn:He; [discriminate|].
    apply is_empty_false in He.
    case_bool_decide; intros [= <-]; split; try discriminate; assumption.
Qed.

Lemma normalize_phone_cleans_witness :
  Py.all_chars Py.isdigit "9876543210" = true
  ∧ String.length "9876543210" = 10%nat
  ∧ normalize_phone (Some "9876543210") = Some "+919876543210"
  ∧ normalize_phone (Some "12") = Some "12".
Proof.
  split_and!; [reflexivity | reflexivity | |].
  - apply (proj1 (proj2 (proj2 (normalize_phone_cleans "9876543210"))));
      reflexivity.
  - apply (proj1 (proj2 (proj2 (proj2 (normalize_phone_cleans "12")))));
      [discriminate | simpl; lia].
Defined.

Section TrailingGroup.

Variables o c : ascii.
Hypothesis open_not_space : Py.isspace o = false.

Lemma newline_is_space : Py.isspace (Py.chr 10) = true.
Proof. reflexivity. Qed.

(** The closing [\s*$]: only white space may follow. *)
Lemma star_space_eol s :
  Re.star Re.Space (Re.match_here [Re.Eol]) s
  = if Py.all_chars Py.isspace s then Some EmptyString else None.
Proof.
  induction s as [|d s IH]; [reflexivity|].
  cbn [Re.star Re.in_cls Py.all_chars].
  destruct (Py.isspace d) eqn:Hd; cbn [andb].
  - rewrite IH. destruct (Py.all_chars Py.isspace s) eqn:Hs; [reflexivity|].
    cbn [Re.match_here]. unfold Re.at_eol. cbn [Py.is_empty orb].
    destruct (String.eqb_spec (String d s) Re.newline) as [Heq|_]; [|reflexivity].
    injection Heq as _ ->. discriminate Hs.
  - cbn [Re.match_here]. unfold Re.at_eol. cbn [Py.is_empty orb].
    destruct (String.eqb_spec (String d s) Re.newline) as [Heq|_]; [|reflexivity].
    injection Heq as -> _. rewrite newline_is_space in Hd. discriminate Hd.
Qed.

(** The body [[^c]*c\s*$]: the first [c] closes the group. *)
Lemma star_not_close s :
  Re.star (Re.Not c) (Re.match_here [Re.One (Re.Chr c); Re.Star Re.Space; Re.Eol]) s
  = if closes c s then Some EmptyString else None.
Proof.
  induction s as [|d s IH]; [reflexivity|].
  cbn [Re.star Re.in_cls closes].
  destruct (Ascii.eqb c d) eqn:Hd; cbn [negb].
  - cbn [Re.match_here Re.in_cls]. rewrite Hd. apply star_space_eol.
  - rewrite IH. destruct (closes c s); [reflexivity|].
    cbn [Re.match_here Re.in_cls]. rewrite Hd. reflexivity.
Qed.

(** The head [\s*o]: white space is skipped, then [o] must come. *)
Lemma star_space_open p s :
  Re.star Re.Space (Re.match_here (Re.One (Re.Chr o) :: p)) s
  = match Py.lstrip s with
    | String d s' => if Ascii.eqb o d then Re.match_here p s' else None
    | EmptyString => None
    end.
Proof.
  induction s as [|d s IH]; [reflexivity|].
  cbn [Re.star Re.in_cls Py.lstrip].
  destruct (Py.isspace d) eqn:Hd.
  - rewrite IH.
    destruct (match Py.lstrip s with
              | String d0 s' => if Ascii.eqb o d0 then Re.match_here p s' else None
              | EmptyString => None
              end); [reflexivity|].
    cbn [Re.match_here Re.in_cls].
    destruct (Ascii.eqb_spec o d) as [->|_]; [|reflexivity].
    rewrite open_not_space in Hd. discriminate Hd.
  - reflexivity.
Qed.

(** The whole pattern matches exactly the groups, and then up to the end of
    the subject. *)
Lemma match_group s :
  Re.match_here (group_pattern o c) s
  = if is_group o c s then Some EmptyString else None.
Proof.
  unfold group_pattern, is_group.
  change (Re.match_here (Re.Star Re.Space :: ?p) s)
    with (Re.star Re.Space (Re.match_here p) s).
  rewrite star_space_open.
  destruct (Py.lstrip s) as [|d s']; [reflexivity|].
  destruct (Ascii.eqb o d); [|reflexivity].
  change (Re.match_here (Re.Star (Re.Not c) :: ?p) s')
    with (Re.star (Re.Not c) (Re.match_here p) s').
  rewrite star_not_close. reflexivity.
Qed.

Lemma sub_del_all p (k : nat) s :
  (String.length s <= k)%nat -> Re.sub_del p k s = EmptyString.
Proof.
  revert k. induction s as [|d s IH]; intros k Hk; [reflexivity|].
  simpl in Hk. destruct k as [|k]; [lia|].
  simpl. apply IH. lia.
Qed.

(** Deleting the matches of the pattern cuts the subject at its first
    trailing group. *)
Lemma sub_group s : Re.sub (group_pattern o c) s = strip_group o c s.
Proof.
  unfold Re.sub. induction s as [|d s IH]; [reflexivity|].
  cbn [Re.sub_del strip_group]. rewrite match_group.
  destruct (is_group o c (String d s)).
  - cbn [String.length]. rewrite Nat.sub_0_r. apply sub_del_all. lia.
  - rewrite IH. reflexivity.
Qed.

End TrailingGroup.

Section Trimming.

Lemma has_char_remove_same q s : Py.has_char q (Py.remove_char q s) = false.
Proof.
  induction s as [|d s IH]; [reflexivity|]. simpl.
  destruct (Ascii.eqb q d) eqn:Hd; [assumption|]. simpl. by rewrite Hd.
Qed.

Lemma has_char_remove_other q d s :
  Py.has_char q s = false -> Py.has_char q (Py.remove_char d s) = false.
Proof.
  induction s as [|e s IH]; [reflexivity|]. simpl. intros H.
  apply orb_false_iff in H as [He Hs].
  destruct (Ascii.eqb d e); simpl; [auto|]. rewrite He. auto.
Qed.

Lemma has_char_lstrip q s :
  Py.has_char q s = false -> Py.has_char q (Py.lstrip s) = false.
Proof.
  induction s as [|e s IH]; [reflexivity|]. simpl. intros H.
  destruct (Py.isspace e); [|assumption].
  apply orb_false_iff in H as [_ Hs]. auto.
Qed.

Lemma has_char_rstrip q s :
  Py.has_char q s = false -> Py.has_char q (Py.rstrip s) = false.
Proof.
  induction s as [|e s IH]; [reflexivity|]. simpl. intros H.
  apply orb_false_iff in H as [He Hs].
  destruct (Py.isspace e && Py.is_empty (Py.rstrip s)); [reflexivity|].
  simpl. rewrite He. auto.
Qed.

Lemma rstrip_idem s : Py.rstrip (Py.rstrip s) = Py.rstrip s.
Proof.
  induction s as [|e s IH]; [reflexivity|]. simpl.
  destruct (Py.isspace e && Py.is_empty (Py.rstrip s)) eqn:H; [reflexivity|].
  simpl. rewrite IH, H. reflexivity.
Qed.

Lemma lstrip_rstrip_lstrip s :
  Py.lstrip (Py.rstrip (Py.lstrip s)) = Py.rstrip (Py.lstrip s).
Proof.
  induction s as [|e s IH]; [reflexivity|]. simpl.
  destruct (Py.isspace e) eqn:He; [assumption|].
  simpl. rewrite He. simpl. rewrite He. reflexivity.
Qed.

Lemma strip_idem s : Py.strip (Py.strip s) = Py.strip s.
Proof.
  unfold Py.strip. rewrite lstrip_rstrip_lstrip. apply rstrip_idem.
Qed.

End Trimming.

(** C6, counterexample.  On "Foo [x] (y)" the specification's wording strips
    the single trailing group and keeps "Foo [x]"; the program strips the
    round group and then the square one, and returns "Foo". *)
Lemma clean_business_name_two_groups :
  clean_business_name (Some "Foo [x] (y)") = Some "Foo"
  ∧ clean_business_name_spec (Some "Foo [x] (y)") = Some "Foo [x]"
  ∧ clean_business_name (Some "Foo [x] (y)")
    ≠ clean_business_name_spec (Some "Foo [x] (y)").
Proof. split_and!; [reflexivity | reflexivity | discriminate]. Qed.

(** C6, as amended.  [clean_business_name] collapses the white-space runs of
    its input to single spaces and trims it; cuts the text at a trailing
    round-bracket group and after that at a trailing square-bracket group
    (so a square group followed by a round one loses both); removes every
    double and single quote and trims again; it is null for a null or empty
    input and whenever the text is or becomes empty.  A result is therefore
    never empty, holds no quote and has no white space at either end; and
    "Joe's Cafe (Closed)" becomes "Joes Cafe". *)
Theorem clean_business_name_steps (raw : option string) :
  clean_business_name raw = clean_business_name_direct raw
  ∧ (∀ out, clean_business_name raw = Some out ->
       out ≠ EmptyString
       ∧ Py.has_char double_quote out = false
       ∧ Py.has_char single_quote out = false
       ∧ Py.strip out = out)
  ∧ clean_business_name (Some "Joe's Cafe (Closed)") = Some "Joes Cafe".
Proof.
  assert (Heq : clean_business_name raw = clean_business_name_direct raw).
  { unfold clean_business_name, clean_business_name_direct, collapse,
      some_if_nonempty, remove_quotes.
    destruct (negb (Py.truthy raw)); [reflexivity|].
    destruct (Py.is_empty _); [reflexivity|].
    rewrite !sub_group by reflexivity. reflexivity. }
  split_and!; [exact Heq | | reflexivity].
  intros out. rewrite Heq. unfold clean_business_name_direct, some_if_nonempty.
  destruct (negb (Py.truthy raw)); [discriminate|].
  destruct (Py.is_empty (collapse _)); [discriminate|].
  destruct (Py.is_empty (Py.strip _)) eqn:He; [discriminate|].
  intros [= <-]. split_and!.
  - by apply is_empty_false.
  - unfold Py.strip, remove_quotes.
    apply has_char_rstrip, has_char_lstrip, has_char_remove_other,
      has_char_remove_same.
  - unfold Py.strip, remove_quotes.
    apply has_char_rstrip, has_char_lstrip, has_char_remove_same.
  - apply strip_idem.
Qed.

Lemma clean_business_name_steps_witness :
  clean_business_name (Some "Joe's Cafe (Closed)") = Some "Joes Cafe"
  ∧ Py.has_char single_quote "Joes Cafe" = false.
Proof.
  split; [reflexivity|].
  apply (proj1 (proj2 (clean_business_name_steps (Some "Joe's Cafe (Closed)")))
           "Joes Cafe").
  reflexivity.
Defined.

(** * Validation of the request *)

Section Validation.

(** A radius that is neither at most 0 nor above 0 is not a number, and so
    is its product with 1000. *)
Lemma nan_radius (r : float) :
  PrimFloat.leb r 0 = false -> PrimFloat.ltb 0 r = false ->
  Prim2SF (PrimFloat.mul r 1000) = S754_nan.
Proof.
  rewrite leb_spec, ltb_spec, mul_spec.
  change (Prim2SF 0) with (S754_zero false).
  destruct (Prim2SF r) as [s|s| |s m e]; try destruct s; cbn;
    try discriminate; reflexivity.
Qed.

Lemma strip_empty_blank niche :
  Py.strip niche = EmptyString ->
  Py.is_empty niche || Py.is_empty (Py.strip niche) = true.
Proof. intros ->. apply orb_true_r. Qed.

Lemma convert_inputs_ok lat lon radius_km :
  convert_inputs (FloatOk lat) (FloatOk lon) (FloatOk radius_km)
  = Return (lat, lon, radius_km).
Proof. reflexivity. Qed.

Lemma convert_inputs_rejects lat lon radius_km :
  lat ≠ FloatOverflowError -> lon ≠ FloatOverflowError ->
  radius_km ≠ FloatOverflowError ->
  convertible lat = false ∨ convertible lon = false ∨ convertible radius_km = false ->
  convert_inputs lat lon radius_km = Raise (ValueError "Invalid coordinates or radius").
Proof.
  intros Hlat Hlon Hrad Hbad.
  destruct lat, lon, radius_km; try congruence; try reflexivity.
  simpl in Hbad. destruct Hbad as [?|[?|?]]; discriminate.
Qed.

End Validation.

(** The validation of [get_businesses] on every other input.  Provided no
    conversion by [float()] overflows, [get_businesses] raises [ValueError]
    and leaves the world untouched (no request posted, no pause, no output)
    whenever a coordinate or the radius does not convert, or the category is
    blank after trimming, or the radius is not strictly greater than 0, or
    it exceeds 50. *)
Theorem get_businesses_rejects
    (float_repr : float -> string) (urlparse : string -> option (string * string))
    (net : nat -> reply) (lat lon radius_km : float_arg) (niche : string) (w : world) :
  lat ≠ FloatOverflowError -> lon ≠ FloatOverflowError ->
  radius_km ≠ FloatOverflowError ->
  invalid_request lat lon radius_km niche ->
  ∃ msg, get_businesses float_repr urlparse net lat lon radius_km niche w
         = (Raise (ValueError msg), w).
Proof.
  intros Hlat Hlon Hrad Hbad. unfold get_businesses.
  destruct (decide (convertible lat = false ∨ convertible lon = false
                    ∨ convertible radius_km = false)) as [Hconv|Hconv].
  { rewrite convert_inputs_rejects by assumption. eauto. }
  destruct lat as [lat| | |], lon as [lon| | |], radius_km as [r| | |];
    try (exfalso; apply Hconv; simpl; tauto).
  rewrite convert_inputs_ok.
  destruct (Py.is_empty niche || Py.is_empty (Py.strip niche)) eqn:Hniche; [eauto|].
  destruct (PrimFloat.leb r 0 || PrimFloat.ltb 50 r) eqn:Hcheck; [eauto|].
  apply orb_false_iff in Hcheck as [Hle Hgt].
  destruct Hbad as [H|[H|[H|[H|(r' & [= <-] & [H|H])]]]]; try discriminate H.
  - rewrite strip_empty_blank in Hniche by assumption. discriminate.
  - unfold int_of_float. rewrite (nan_radius r Hle H). eauto.
  - congruence.
Qed.

Lemma get_businesses_rejects_witness :
  PrimFloat.ltb 50 60 = true
  ∧ ∃ msg, get_businesses repr_stub urlparse_stub (fun _ => ReplyJson None)
             (FloatOk 18.5) (FloatOk 73.75) (FloatOk 60) "bank" world0
           = (Raise (ValueError msg), world0).
Proof.
  split; [reflexivity|].
  apply (get_businesses_rejects repr_stub urlparse_stub (fun _ => ReplyJson None)
           (FloatOk 18.5) (FloatOk 73.75) (FloatOk 60) "bank" world0);
    [discriminate | discriminate | discriminate |].
  right; right; right; right. exists 60%float. split; [reflexivity|].
  right. reflexivity.
Defined.

(** C7 (the behaviour of the code at the failing input).  A latitude that
    [float()] refuses with [OverflowError] (an int beyond the float range,
    such as 10**400) is not convertible to floating point, so the request is
    one that must be rejected with the validation error.  The handler of
    [get_businesses] names [ValueError] and [TypeError] only and misses this
    failure of the conversion: the call raises [OverflowError], not
    [ValueError]. *)
Lemma get_businesses_overflow :
  invalid_request FloatOverflowError (FloatOk 18.5) (FloatOk 5) "bank"
  ∧ get_businesses repr_stub urlparse_stub (fun _ => ReplyTimeout)
      FloatOverflowError (FloatOk 18.5) (FloatOk 5) "bank" world0
    = (Raise (OverflowError "int too large to convert to float"), world0)
  ∧ is_value_error
      (get_businesses repr_stub urlparse_stub (fun _ => ReplyTimeout)
         FloatOverflowError (FloatOk 18.5) (FloatOk 5) "bank" world0).1 = false.
Proof. split_and!; [left; reflexivity | reflexivity | reflexivity]. Qed.

(** * Upstream failures *)

Section Upstream.

Context (net : nat -> reply) (query : string).

Lemma posts_sleep t w : posts (sleep t w) = posts w.
Proof. reflexivity. Qed.

Lemma posts_print l w : posts (print l w) = posts w.
Proof. reflexivity. Qed.

Lemma posts_post q w : length (posts (post q w)) = S (length (posts w)).
Proof. simpl. rewrite length_app. simpl. lia. Qed.

(** When every remaining attempt fails, [make_overpass_request] raises after
    having posted the query once per attempt. *)
Lemma make_overpass_request_fails (retry_count : Z) (w : world) :
  0 <= retry_count <= MAX_RETRIES ->
  (∀ i : nat, (i <= Z.to_nat (MAX_RETRIES - retry_count))%nat ->
              is_failure (net (length (posts w) + i)) = true) ->
  ∃ e w', make_overpass_request net query retry_count w = (Raise e, w')
          ∧ length (posts w')
            = (length (posts w) + S (Z.to_nat (MAX_RETRIES - retry_count)))%nat.
Proof.
  intros Hrc Hfail.
  funelim (make_overpass_request net query retry_count w);
    try match goal with
        | Hnet : net (length (posts ?w)) = ReplyJson _ |- _ =>
            specialize (Hfail 0%nat ltac:(lia)); rewrite Nat.add_0_r, Hnet in Hfail;
            discriminate Hfail
        end.
  all: try match goal with
        | IH : context [make_overpass_request _ _ (?rc + 1) ?w1] |- _ =>
            destruct (IH ltac:(unfold MAX_RETRIES in *; lia)) as (e & w' & Hreq & Hlen);
            [ intros i Hi;
              rewrite ?posts_sleep, ?posts_print, posts_post;
              replace (S (length (posts w)) + i)%nat
                with (length (posts w) + S i)%nat by lia;
              apply Hfail; unfold MAX_RETRIES in *; lia
            | exists e, w'; split; [exact Hreq|];
              rewrite Hlen, ?posts_sleep, ?posts_print, posts_post;
              unfold MAX_RETRIES in *; lia ]
        end.
  all: eexists _, _; split; [reflexivity|];
    rewrite posts_post; unfold MAX_RETRIES in *; lia.
Qed.

End Upstream.

(** C8, counterexample.  When the geocoder answers with an error status,
    [get_coordinates] raises and [find_businesses] has no handler: the
    caller gets the exception, not a zero-count response. *)
Lemma find_businesses_geocoder_error :
  find_businesses repr_stub urlparse_stub
    (fun _ => GeoHTTPError 503 "Service Unavailable") (fun _ => ReplyJson None)
    "bank" "Pune" 5 world0
  = (Raise (HTTPError 503 "Service Unavailable"), world0).
Proof. reflexivity. Qed.

(** C8, as amended.  [find_businesses] answers with a zero count and an empty
    list when the geocoder finds nothing, and, for a request that passes
    validation, when every attempt of the fetch fails (four posts, then the
    terminal failure is caught).  An error of the geocoder itself is not
    caught: whatever [get_coordinates] raises reaches the caller.  Nor is
    anything that [get_businesses] raises: with coordinates found, a blank
    category or a radius that is not above 0 or that exceeds 50 reaches the
    caller as [ValueError], before any request is posted. *)
Theorem find_businesses_degrades
    (float_repr : float -> string) (urlparse : string -> option (string * string))
    (geo : string -> geo_reply) (net : nat -> reply)
    (niche location : string) (radius_km : float) (w : world) :
  (geo location = GeoJson [] ->
   find_businesses float_repr urlparse geo net niche location radius_km w
   = (Return (mkResponse 0 []), w))
  ∧ (∀ lat lon rest meters,
       geo location = GeoJson (mkHit (FloatOk lat) (FloatOk lon) :: rest) ->
       Py.strip niche ≠ EmptyString ->
       PrimFloat.leb radius_km 0 = false -> PrimFloat.ltb 50 radius_km = false ->
       int_of_float (PrimFloat.mul radius_km 1000) = Return meters ->
       (∀ i : nat, (i <= 3)%nat -> is_failure (net (length (posts w) + i)%nat) = true) ->
       ∃ w', find_businesses float_repr urlparse geo net niche location radius_km w
             = (Return (mkResponse 0 []), w')
             ∧ length (posts w') = (length (posts w) + 4)%nat)
  ∧ (∀ e, get_coordinates geo location = Raise e ->
       find_businesses float_repr urlparse geo net niche location radius_km w
       = (Raise e, w))
  ∧ (∀ status text, geo location = GeoHTTPError status text ->
       get_coordinates geo location = Raise (HTTPError status text))
  ∧ (∀ text, geo location = GeoRequestException text ->
       get_coordinates geo location = Raise (RequestException text))
  ∧ (∀ lat lon rest e w1,
       geo location = GeoJson (mkHit (FloatOk lat) (FloatOk lon) :: rest) ->
       get_businesses float_repr urlparse net (FloatOk lat) (FloatOk lon)
         (FloatOk radius_km) niche w = (Raise e, w1) ->
       find_businesses float_repr urlparse geo net niche location radius_km w
       = (Raise e, w1))
  ∧ (∀ lat lon rest,
       geo location = GeoJson (mkHit (FloatOk lat) (FloatOk lon) :: rest) ->
       Py.strip niche = EmptyString ∨ PrimFloat.ltb 0 radius_km = false
       ∨ PrimFloat.ltb 50 radius_km = true ->
       ∃ msg, find_businesses float_repr urlparse geo net niche location radius_km w
              = (Raise (ValueError msg), w)).
Proof.
  split_and!.
  - intros Hgeo. unfold find_businesses, get_coordinates. rewrite Hgeo. reflexivity.
  - intros lat lon rest meters Hgeo Hniche Hle Hgt Hint Hfail.
    unfold find_businesses, get_coordinates. rewrite Hgeo. cbn [hit_lat hit_lon float_of].
    unfold get_businesses. rewrite convert_inputs_ok.
    assert (Hblank : Py.is_empty niche || Py.is_empty (Py.strip niche) = false).
    { apply orb_false_iff. split; apply is_empty_false; [|assumption].
      intros ->. apply Hniche. reflexivity. }
    rewrite Hblank, Hle, Hgt, Hint. cbn [orb].
    destruct (make_overpass_request_fails net
                (build_query float_repr
                   (default (Py.lower (Py.strip niche))
                      (niche_mapping !! Py.lower (Py.strip niche))) meters lat lon)
                0 w) as (e & w' & Hreq & Hlen).
    { unfold MAX_RETRIES. lia. }
    { intros i Hi. apply Hfail. unfold MAX_RETRIES in Hi. lia. }
    rewrite Hreq. eexists. split; [reflexivity|].
    rewrite posts_print, Hlen. unfold MAX_RETRIES. lia.
  - intros e He. unfold find_businesses. rewrite He. reflexivity.
  - intros status text Hgeo. unfold get_coordinates. rewrite Hgeo. reflexivity.
  - intros text Hgeo. unfold get_coordinates. rewrite Hgeo. reflexivity.
  - intros lat lon rest e w1 Hgeo Hget.
    unfold find_businesses, get_coordinates. rewrite Hgeo.
    cbn [hit_lat hit_lon float_of]. rewrite Hget. reflexivity.
  - intros lat lon rest Hgeo Hbad.
    destruct (get_businesses_rejects float_repr urlparse net
                (FloatOk lat) (FloatOk lon) (FloatOk radius_km) niche w)
      as [msg Hget]; try discriminate.
    { unfold invalid_request.
      destruct Hbad as [H|[H|H]]; [do 3 right; left; exact H | |];
        do 4 right; exists radius_km; auto. }
    exists msg. unfold find_businesses, get_coordinates. rewrite Hgeo.
    cbn [hit_lat hit_lon float_of]. rewrite Hget. reflexivity.
Qed.

Lemma find_businesses_degrades_witness :
  (∃ w', find_businesses repr_stub urlparse_stub
           (fun _ => GeoJson [mkHit (FloatOk 18.5) (FloatOk 73.75)])
           (fun _ => ReplyTimeout) "bank" "Pune" 5 world0
         = (Return (mkResponse 0 []), w')
         ∧ length (posts w') = 4%nat)
  ∧ (∃ msg, find_businesses repr_stub urlparse_stub
              (fun _ => GeoJson [mkHit (FloatOk 18.5) (FloatOk 73.75)])
              (fun _ => ReplyTimeout) "bank" "Pune" 60 world0
            = (Raise (ValueError msg), world0)).
Proof.
  split.
  - apply (proj1 (proj2 (find_businesses_degrades repr_stub urlparse_stub
             (fun _ => GeoJson [mkHit (FloatOk 18.5) (FloatOk 73.75)])
             (fun _ => ReplyTimeout) "bank" "Pune" 5 world0))
             18.5%float 73.75%float [] 5000).
    + reflexivity.
    + discriminate.
    + reflexivity.
    + reflexivity.
    + reflexivity.
    + intros i _. reflexivity.
  - apply (proj2 (proj2 (proj2 (proj2 (proj2 (proj2
             (find_businesses_degrades repr_stub urlparse_stub
                (fun _ => GeoJson [mkHit (FloatOk 18.5) (FloatOk 73.75)])
                (fun _ => ReplyTimeout) "bank" "Pune" 60 world0))))))
             18.5%float 73.75%float []).
    + reflexivity.
    + right. right. reflexivity.
Defined.

(** * Further properties of deduplication *)

Section DedupOrder.

Local Open Scope list_scope.

Implicit Types (st : dedup_state) (b : Business) (acc ys xs : list Business).

(** An iteration leaves the accepted list alone or appends the candidate. *)
Lemma dedup_step_cases st b :
  unique_businesses (dedup_step st b) = unique_businesses st
  ∨ unique_businesses (dedup_step st b) = unique_businesses st ++ [b].
Proof.
  unfold dedup_step.
  repeat match goal with |- context [if ?c then _ else _] => destruct c end;
    simpl; auto.
Qed.

Lemma fold_dedup_sublist xs st :
  ∃ ys, unique_businesses (fold_left dedup_step xs st) = unique_businesses st ++ ys
        ∧ ys `sublist_of` xs.
Proof.
  revert st. induction xs as [|x xs IH]; intros st; simpl.
  - exists []. by rewrite app_nil_r.
  - destruct (IH (dedup_step st x)) as (ys & Hys & Hsub).
    destruct (dedup_step_cases st x) as [Hst|Hst]; rewrite Hst in Hys.
    + exists ys. split; [assumption | by apply sublist_cons].
    + exists (x :: ys). split; [by rewrite Hys, <- app_assoc | by apply sublist_skip].
Qed.

Lemma fold_dedup_inv xs st : dedup_inv st -> dedup_inv (fold_left dedup_step xs st).
Proof.
  revert st. induction xs as [|x xs IH]; intros st Hinv; simpl; [assumption|].
  apply IH, dedup_step_inv, Hinv.
Qed.

Lemma scan_duplicate_app b acc more :
  scan_duplicate b (acc ++ more) = scan_duplicate b acc || scan_duplicate b more.
Proof.
  induction acc as [|e acc IH]; simpl; [reflexivity|].
  destruct (_ && _ && _ && _); [reflexivity | assumption].
Qed.

(** A candidate turned down once is turned down ever after. *)
Lemma accepts_mono acc more b :
  accepts acc b = false -> accepts (acc ++ more) b = false.
Proof.
  unfold accepts. rewrite !fmap_app, scan_duplicate_app.
  intros H. apply andb_false_iff in H as [H|Hscan];
    [apply andb_false_iff in H as [H|Hcomb];
     [apply andb_false_iff in H as [Hvalid|Hhash]|]|].
  - rewrite Hvalid. reflexivity.
  - apply negb_false_iff, bool_decide_eq_true in Hhash.
    rewrite (bool_decide_eq_true_2 (get_hash_id b ∈ _ ++ _))
      by (apply elem_of_app; auto).
    simpl. by rewrite andb_false_r.
  - apply negb_false_iff, andb_true_iff in Hcomb as [Hc Haddr].
    apply bool_decide_eq_true in Hc.
    rewrite (bool_decide_eq_true_2 (combination_key b ∈ _ ++ _))
      by (apply elem_of_app; auto).
    rewrite Haddr. simpl. by rewrite andb_false_r.
  - apply negb_false_iff in Hscan. rewrite Hscan. simpl. by rewrite andb_false_r.
Qed.

Lemma accepts_seen_hash acc b :
  get_hash_id b ∈ (get_hash_id <$> acc) -> accepts acc b = false.
Proof.
  intros Hin. unfold accepts. rewrite (bool_decide_eq_true_2 _ Hin).
  simpl. rewrite andb_false_r. reflexivity.
Qed.

(** After a run, every candidate that was in it is turned down. *)
Lemma seen_rejected xs st b :
  dedup_inv st -> b ∈ xs ->
  accepts (unique_businesses (fold_left dedup_step xs st)) b = false.
Proof.
  revert st. induction xs as [|x xs IH]; intros st Hinv Hin; [by apply elem_of_nil in Hin|].
  simpl. apply elem_of_cons in Hin as [->|Hin]; [|by apply IH; [apply dedup_step_inv|]].
  destruct (fold_dedup_sublist xs (dedup_step st x)) as (ys & -> & _).
  apply accepts_mono. rewrite (dedup_step_accepts _ _ Hinv).
  destruct (accepts (unique_businesses st) x) eqn:Hacc; [|assumption].
  simpl. apply accepts_seen_hash. rewrite fmap_app. apply elem_of_app. right.
  simpl. apply list_elem_of_singleton. reflexivity.
Qed.

(** Accepting a chain keeps every relation that acceptance establishes
    between the accepted records and the newcomer. *)
Lemma chain_sorted (R : Business -> Business -> Prop) acc ys :
  (∀ acc' y, accepts acc' y = true -> Forall (fun e => R e y) acc') ->
  chain acc ys -> StronglySorted R acc -> StronglySorted R (acc ++ ys).
Proof.
  intros HR. revert acc. induction ys as [|y ys IH]; intros acc Hch Hss.
  - by rewrite app_nil_r.
  - destruct Hch as [Hacc Hch].
    replace (acc ++ y :: ys) with ((acc ++ [y]) ++ ys) by (by rewrite <- app_assoc).
    apply IH; [assumption|].
    apply StronglySorted_app. split_and!; [|assumption|repeat constructor].
    intros x1 x2 H1 H2. apply list_elem_of_singleton in H2 as ->.
    pose proof (HR _ _ Hacc) as Hall. rewrite Forall_forall in Hall. auto.
Qed.

Lemma get_address_string_empty b :
  Py.is_empty (get_address_string b) = negb (dict_truthy (address b)).
Proof.
  unfold get_address_string. destruct (dict_truthy (address b)); simpl; [|reflexivity].
  destruct (norm_str _); reflexivity.
Qed.

Lemma accepts_distinct_combination acc y :
  accepts acc y = true -> Forall (fun e => distinct_combination e y) acc.
Proof.
  unfold accepts. rewrite !andb_true_iff, !negb_true_iff. intros [[[_ _] Hc] _].
  apply Forall_forall. intros e He Haddr Heq.
  rewrite get_address_string_empty, Haddr in Hc. simpl in Hc.
  rewrite andb_true_r in Hc. apply bool_decide_eq_false in Hc. apply Hc.
  rewrite <- Heq. apply list_elem_of_fmap. eauto.
Qed.

Lemma valid_name_truthy b : is_valid b = true -> Py.truthy (name b) = true.
Proof.
  unfold is_valid. destruct (Py.truthy (name b)) eqn:Hn; [reflexivity|].
  assert (Hempty : Py.or_empty (name b) = EmptyString).
  { unfold Py.truthy in Hn. destruct (name b) as [[|c n]|]; try reflexivity.
    discriminate Hn. }
  rewrite Hempty. destruct (negb false && _); intros H; discriminate H.
Qed.

Lemma lower_is_empty s : Py.is_empty (Py.lower s) = Py.is_empty s.
Proof. destruct s; reflexivity. Qed.

Lemma accepts_score_grows acc y :
  accepts acc y = true -> Forall (fun e => score_grows e y) acc.
Proof.
  unfold accepts. rewrite !andb_true_iff, !negb_true_iff. intros [[[Hv _] _] Hscan].
  apply valid_name_truthy in Hv.
  assert (Hne : Py.is_empty (lower_name y) = false).
  { unfold lower_name. rewrite lower_is_empty.
    unfold Py.truthy in Hv. destruct (name y); [|discriminate].
    simpl. by apply negb_true_iff. }
  induction acc as [|e acc IH]; constructor.
  - intros Heq. simpl in Hscan. fold (lower_name e) (lower_name y) in Hscan.
    rewrite Heq, Hne in Hscan. simpl in Hscan. rewrite String.eqb_refl in Hscan.
    simpl in Hscan. destruct (Z.leb_spec (data_score y) (data_score e)); [discriminate|lia].
  - apply IH. simpl in Hscan.
    destruct (_ && _ && _ && _); [discriminate | assumption].
Qed.

Lemma StronglySorted_filter {A} (R : A -> A -> Prop) (P : A -> Prop)
    `{∀ x, Decision (P x)} (l : list A) :
  StronglySorted R l -> StronglySorted R (filter P l).
Proof.
  induction 1 as [|x l Hss IH Hall]; [constructor|].
  rewrite filter_cons. destruct (decide (P x)); [|assumption].
  constructor; [assumption|].
  rewrite Forall_forall in *. intros y Hy.
  apply list_elem_of_filter in Hy as [_ Hy]. auto.
Qed.

(** A strictly increasing list of integers between [lo] and [hi] has at most
    [hi - lo + 1] elements. *)
Lemma increasing_length (zs : list Z) (lo hi : Z) :
  StronglySorted Z.lt zs -> Forall (fun z => lo <= z <= hi) zs ->
  Z.of_nat (length zs) <= Z.max 0 (hi - lo + 1).
Proof.
  intros Hss. revert lo. induction Hss as [|z zs Hss IH Hall]; intros lo Hin; simpl; [lia|].
  apply Forall_cons in Hin as [Hz Hin].
  specialize (IH (z + 1)).
  assert (Forall (fun z0 => z + 1 <= z0 <= hi) zs) as Hin'.
  { rewrite Forall_forall in *. intros z' Hz'. specialize (Hall z' Hz').
    specialize (Hin z' Hz'). lia. }
  specialize (IH Hin'). lia.
Qed.

End DedupOrder.

(** X1. The output of [deduplicate_businesses] is a sub-list of its input:
    it only holds candidates of the input, in the order of the input, and it
    is not longer. *)
Theorem deduplicate_sublist (businesses : list Business) :
  deduplicate_businesses businesses `sublist_of` businesses
  ∧ (length (deduplicate_businesses businesses) <= length businesses)%nat.
Proof.
  destruct (fold_dedup_sublist businesses (mkDedup ∅ ∅ [])) as (ys & Hys & Hsub).
  unfold deduplicate_businesses. rewrite Hys. simpl.
  split; [assumption | by apply sublist_length].
Qed.

(** X2. The first valid candidate always survives and heads the output; the
    output is empty exactly when no candidate is valid. *)
Theorem deduplicate_head (businesses : list Business) :
  head (deduplicate_businesses businesses) = head (List.filter is_valid businesses).
Proof.
  unfold deduplicate_businesses.
  induction businesses as [|x xs IH]; [reflexivity|].
  simpl. destruct (is_valid x) eqn:Hx.
  - destruct (fold_dedup_sublist xs (dedup_step (mkDedup ∅ ∅ []) x)) as (ys & -> & _).
    unfold dedup_step. rewrite Hx. reflexivity.
  - replace (dedup_step (mkDedup ∅ ∅ []) x) with (mkDedup ∅ ∅ []); [exact IH|].
    unfold dedup_step. rewrite Hx. reflexivity.
Qed.

(** X3. Candidates that already occurred in the input change nothing when
    they come again: if every element of [again] occurs in [businesses],
    deduplicating [businesses ++ again] gives what [businesses] alone
    gives. *)
Theorem deduplicate_absorbs (businesses again : list Business) :
  (∀ b, b ∈ again -> b ∈ businesses) ->
  deduplicate_businesses (businesses ++ again)%list = deduplicate_businesses businesses.
Proof.
  intros Hin. unfold deduplicate_businesses. rewrite fold_left_app.
  pose proof (fold_dedup_inv businesses _ dedup_inv_init) as Hinv.
  induction again as [|y ys IH]; [reflexivity|].
  simpl. rewrite (dedup_step_accepts _ _ Hinv).
  rewrite (seen_rejected businesses _ y dedup_inv_init)
    by (apply Hin; left).
  apply IH. intros b Hb. apply Hin. by right.
Qed.

Lemma deduplicate_absorbs_witness :
  deduplicate_businesses ([bank_bare; bank_plain; brand_only]
                          ++ [brand_only; bank_plain; bank_bare])%list
  = [bank_bare; bank_plain].
Proof.
  rewrite (deduplicate_absorbs [bank_bare; bank_plain; brand_only]
             [brand_only; bank_plain; bank_bare]).
  - vm_compute. reflexivity.
  - intros b Hb. apply list_elem_of_In. apply list_elem_of_In in Hb.
    simpl in *. tauto.
Defined.

(** X4. Candidates added at the end of the input never disturb what was
    accepted before: the output for a list is a prefix of the output for any
    extension of the list. *)
Theorem deduplicate_app_prefix (businesses more : list Business) :
  deduplicate_businesses businesses
  `prefix_of` deduplicate_businesses (businesses ++ more)%list.
Proof.
  unfold deduplicate_businesses. rewrite fold_left_app.
  destruct (fold_dedup_sublist more (fold_left dedup_step businesses (mkDedup ∅ ∅ [])))
    as (ys & -> & _).
  by apply prefix_app_r.
Qed.

(** X5. In the output, a record that has an address never repeats the
    name-and-address combination key of a record before it. *)
Theorem deduplicate_distinct_combinations (businesses : list Business) :
  StronglySorted distinct_combination (deduplicate_businesses businesses).
Proof.
  apply (chain_sorted distinct_combination [] _ accepts_distinct_combination
           (deduplicate_chain businesses)).
  constructor.
Qed.

(** X6. Among the records of the output that share a lowercased name the
    completeness score rises strictly from each one to the next; as the
    score of a valid record lies between 1 and 3, no lowercased name occurs
    more than three times. *)
Theorem deduplicate_same_name_bounded (businesses : list Business) :
  StronglySorted score_grows (deduplicate_businesses businesses)
  ∧ ∀ n : string,
      (length (filter (fun b => lower_name b = n) (deduplicate_businesses businesses))
       <= 3)%nat.
Proof.
  assert (Hss : StronglySorted score_grows (deduplicate_businesses businesses)).
  { apply (chain_sorted score_grows [] _ accepts_score_grows
             (deduplicate_chain businesses)). constructor. }
  split; [exact Hss|]. intros n.
  pose proof (chain_valid [] _ (deduplicate_chain businesses)) as Hvalid.
  set (l := filter (fun b => lower_name b = n) (deduplicate_businesses businesses)).
  assert (Hl : StronglySorted score_grows l) by by apply StronglySorted_filter.
  assert (Hn : Forall (fun b => lower_name b = n ∧ is_valid b = true) l).
  { apply Forall_forall. intros b Hb. apply list_elem_of_filter in Hb as [Hb Hin].
    rewrite Forall_forall in Hvalid. auto. }
  assert (Hz : StronglySorted Z.lt (data_score <$> l)).
  { clear -Hl Hn. induction Hl as [|b l Hl IH Hall]; [constructor|].
    apply Forall_cons in Hn as [[Hb _] Hn]. simpl. constructor; [auto|].
    apply Forall_fmap, Forall_forall. intros b' Hb'.
    rewrite Forall_forall in Hall, Hn. apply (Hall b' Hb').
    destruct (Hn b' Hb') as [-> _]. exact Hb. }
  assert (Hr : Forall (fun z => 1 <= z <= 3) (data_score <$> l)).
  { apply Forall_fmap, Forall_forall. intros b Hb.
    rewrite Forall_forall in Hn. destruct (Hn b Hb) as [_ Hv].
    apply valid_name_truthy in Hv. unfold data_score. simpl. rewrite Hv.
    destruct (dict_truthy (contact b)), (dict_truthy (address b)); lia. }
  pose proof (increasing_length _ 1 3 Hz Hr) as Hlen.
  rewrite length_fmap in Hlen. lia.
Qed.

(** X7. Validity is decided by the name alone: a valid record has a
    non-empty name, and every record with the same name is valid as well,
    whatever its brand and its other fields. *)
Theorem is_valid_by_name (b : Business) :
  is_valid b = true ->
  Py.truthy (name b) = true ∧ ∀ b', name b' = name b -> is_valid b' = true.
Proof.
  intros Hv. pose proof (valid_name_truthy b Hv) as Hn.
  split; [exact Hn|]. intros b' Heq. unfold is_valid in *.
  rewrite Heq, Hn in *. exact Hv.
Qed.

Lemma is_valid_by_name_witness :
  is_valid bank_plain = true ∧ is_valid bank_phone = true.
Proof.
  split; [reflexivity|].
  apply (proj2 (is_valid_by_name bank_plain eq_refl) bank_phone). reflexivity.
Defined.

(** * The identity hash *)

Section Hash.

Lemma le_bytes_length n x : length (MD5.le_bytes n x) = n.
Proof. unfold MD5.le_bytes. by rewrite length_map, length_seq. Qed.

Lemma le_bytes_range n x : Forall (fun b => 0 <= b < 256) (MD5.le_bytes n x).
Proof.
  unfold MD5.le_bytes. apply Forall_forall. intros b Hb.
  apply list_elem_of_In, in_map_iff in Hb as (i & <- & _).
  apply Z.mod_pos_bound. lia.
Qed.

Lemma digest_bytes msg :
  length (MD5.digest msg) = 16%nat ∧ Forall (fun b => 0 <= b < 256) (MD5.digest msg).
Proof.
  unfold MD5.digest. destruct (MD5.blocks _ _ _) as [a b c d].
  split.
  - rewrite !length_app, !le_bytes_length. reflexivity.
  - repeat (apply Forall_app; split); apply le_bytes_range.
Qed.

Lemma hex_digit_is_hex n : 0 <= n < 16 -> is_hex (MD5.hex_digit n) = true.
Proof.
  intros Hn.
  assert (n = 0 ∨ n = 1 ∨ n = 2 ∨ n = 3 ∨ n = 4 ∨ n = 5 ∨ n = 6 ∨ n = 7
          ∨ n = 8 ∨ n = 9 ∨ n = 10 ∨ n = 11 ∨ n = 12 ∨ n = 13 ∨ n = 14 ∨ n = 15)
    as H by lia.
  repeat (destruct H as [->|H]; [reflexivity|]). subst. reflexivity.
Qed.

Lemma hex_shape bs :
  Forall (fun b => 0 <= b < 256) bs ->
  String.length (MD5.hex bs) = (2 * length bs)%nat
  ∧ Py.all_chars is_hex (MD5.hex bs) = true.
Proof.
  induction 1 as [|b bs Hb _ [IHlen IHhex]]; [split; reflexivity|].
  split.
  - simpl. rewrite IHlen. lia.
  - cbn [MD5.hex Py.all_chars]. rewrite IHhex.
    rewrite !hex_digit_is_hex; [reflexivity | |].
    + apply Z.mod_pos_bound. lia.
    + split; [apply Z.div_pos; lia | apply Z.div_lt_upper_bound; lia].
Qed.

Lemma same_identity_key a b : same_identity a b -> key_string a = key_string b.
Proof.
  intros (Hn & Hc & Hb & Ha & Hs & Hy & Hp). unfold key_string.
  unfold address_part in Hs, Hy, Hp. rewrite Hn, Hc, Hb. rewrite <- Ha in *.
  destruct (dict_truthy (address a)); [|reflexivity].
  rewrite Hs, Hy, Hp. reflexivity.
Qed.

Lemma NoDup_fmap_eq {A B} (f : A -> B) (l : list A) x y :
  NoDup (f <$> l) -> x ∈ l -> y ∈ l -> f x = f y -> x = y.
Proof.
  induction l as [|z l IH]; intros Hnd Hx Hy Hf; [by apply elem_of_nil in Hx|].
  rewrite fmap_cons in Hnd. apply NoDup_cons in Hnd as [Hz Hnd].
  apply elem_of_cons in Hx as [->|Hx], Hy as [->|Hy]; auto.
  - exfalso. apply Hz. rewrite Hf. apply list_elem_of_fmap. eauto.
  - exfalso. apply Hz. rewrite <- Hf. apply list_elem_of_fmap. eauto.
Qed.

End Hash.

(** X8. The identity hash of every record is a string of exactly 32
    lowercase hexadecimal digits. *)
Theorem get_hash_id_format (b : Business) :
  String.length (get_hash_id b) = 32%nat
  ∧ Py.all_chars is_hex (get_hash_id b) = true.
Proof.
  unfold get_hash_id, MD5.hexdigest.
  destruct (digest_bytes (Py.encode (key_string b))) as [Hlen Hrange].
  destruct (hex_shape _ Hrange) as [Hl Hh]. rewrite Hlen in Hl. auto.
Qed.

(** X9. Two records that agree on name, category and brand up to case and
    surrounding white space, that both have a non-empty address mapping or
    both have none, and that agree on the street, city and postcode of the
    address up to the same, have the same identity hash, whatever their
    contact data, opening hours, coordinates, source id and other address
    keys; and the output of [deduplicate_businesses] never holds two of
    them. *)
Theorem deduplicate_one_per_identity (businesses : list Business) (a b : Business) :
  same_identity a b ->
  get_hash_id a = get_hash_id b
  ∧ (a ∈ deduplicate_businesses businesses ->
     b ∈ deduplicate_businesses businesses -> a = b).
Proof.
  intros Hsame.
  assert (Hh : get_hash_id a = get_hash_id b)
    by (unfold get_hash_id; by rewrite (same_identity_key a b Hsame)).
  split; [exact Hh|]. intros Ha Hb.
  eapply (NoDup_fmap_eq get_hash_id); eauto.
  apply (chain_hashes [] _ (deduplicate_chain businesses)). constructor.
Qed.

Lemma deduplicate_one_per_identity_witness :
  get_hash_id bank_plain = get_hash_id bank_phone
  ∧ (bank_plain ∈ deduplicate_businesses [bank_phone; bank_plain] ->
     bank_phone ∈ deduplicate_businesses [bank_phone; bank_plain] ->
     bank_plain = bank_phone).
Proof.
  apply (deduplicate_one_per_identity [bank_phone; bank_plain] bank_plain bank_phone).
  unfold same_identity. repeat split.
Defined.

(** * Further properties of the field normalisers *)

Section Normalisers.

Lemma is_empty_true_eq s : Py.is_empty s = true -> s = EmptyString.
Proof. destruct s; [reflexivity | discriminate]. Qed.

Lemma filter_chars_id p s : Py.all_chars p s = true -> Py.filter_chars p s = s.
Proof.
  induction s as [|c s IH]; simpl; [reflexivity|].
  intros H. apply andb_true_iff in H as [Hc Hs]. rewrite Hc, IH; auto.
Qed.

(** [normalize_phone] on a string, by cases on what the filter keeps. *)
Lemma normalize_phone_cases raw :
  let kept := Py.filter_chars phone_char raw in
  let cleaned := if Py.startswith "00" kept then "+" ++ Py.drop 2 kept else kept in
  normalize_phone (Some raw)
  = if Py.is_empty cleaned then None
    else if bool_decide (String.length cleaned = 10%nat)
         then Some ("+91" ++ cleaned) else Some cleaned.
Proof.
  intros kept cleaned. unfold normalize_phone.
  destruct raw as [|c raw]; [reflexivity|].
  change (Py.truthy (Some (String c raw))) with true. cbv beta iota zeta.
  change (negb true) with false. cbv iota.
  change (Py.or_empty (Some (String c raw))) with (String c raw).
  fold phone_char. fold kept. fold cleaned.
  change 10 with (Z.of_nat 10). rewrite len_eqb.
  destruct (Py.is_empty cleaned) eqn:He; cbn [negb andb]; rewrite ?He;
    [reflexivity|].
  case_bool_decide; [|by rewrite He].
  change (Py.is_empty ("+91" ++ cleaned)) with false. reflexivity.
Qed.

Lemma normalize_phone_shape raw out :
  normalize_phone (Some raw) = Some out ->
  Py.all_chars phone_char out = true
  ∧ out ≠ EmptyString
  ∧ String.length out ≠ 10%nat
  ∧ Py.startswith "00" out = false.
Proof.
  rewrite normalize_phone_cases.
  set (kept := Py.filter_chars phone_char raw).
  set (cleaned := if Py.startswith "00" kept then "+" ++ Py.drop 2 kept else kept).
  assert (Hkept : Py.all_chars phone_char kept = true) by apply all_chars_filter.
  assert (Hc : Py.all_chars phone_char cleaned = true
               ∧ Py.startswith "00" cleaned = false).
  { subst cleaned. destruct (Py.startswith "00" kept) eqn:H00; [|auto].
    split; [|reflexivity].
    rewrite all_chars_app, all_chars_drop by assumption. reflexivity. }
  destruct Hc as [Hc H00].
  destruct (Py.is_empty cleaned) eqn:He; [discriminate|].
  apply is_empty_false in He.
  case_bool_decide as Hlen; intros [= <-].
  - split_and!; [exact Hc | discriminate | | reflexivity].
    change (String.length ("+91" ++ cleaned)) with (S (S (S (String.length cleaned)))).
    lia.
  - split_and!; assumption.
Qed.

Lemma lower_char_idem c : Py.lower_char (Py.lower_char c) = Py.lower_char c.
Proof. destruct c as [[] [] [] [] [] [] [] []]; reflexivity. Qed.

Lemma lower_char_space c :
  Ascii.eqb " "%char (Py.lower_char c) = Ascii.eqb " "%char c.
Proof. destruct c as [[] [] [] [] [] [] [] []]; reflexivity. Qed.

Lemma lower_idem s : Py.lower (Py.lower s) = Py.lower s.
Proof. induction s as [|c s IH]; simpl; [reflexivity|]. by rewrite lower_char_idem, IH. Qed.

Lemma has_space_lower s :
  Py.has_char " "%char (Py.lower s) = Py.has_char " "%char s.
Proof.
  induction s as [|c s IH]; [reflexivity|].
  cbn [Py.lower Py.has_char]. by rewrite lower_char_space, IH.
Qed.

Lemma lower_app a b : Py.lower (a ++ b) = Py.lower a ++ Py.lower b.
Proof. induction a as [|c a IH]; simpl; [reflexivity|]. by rewrite IH. Qed.

Lemma prefix_lower p s :
  String.prefix p s = true -> String.prefix (Py.lower p) (Py.lower s) = true.
Proof.
  revert s. induction p as [|a p IH]; intros s; [destruct s; reflexivity|].
  destruct s as [|b s]; simpl; [discriminate|].
  destruct (ascii_dec a b) as [->|]; [|discriminate].
  intros H. destruct (ascii_dec (Py.lower_char b) (Py.lower_char b)); [auto|congruence].
Qed.

Lemma prefix_app p s : String.prefix p (p ++ s) = true.
Proof.
  induction p as [|a p IH]; [destruct s; reflexivity|].
  simpl. destruct (ascii_dec a a); [assumption | congruence].
Qed.

Lemma length_lower s : String.length (Py.lower s) = String.length s.
Proof. induction s as [|c s IH]; simpl; [reflexivity|]. by rewrite IH. Qed.

Lemma prefix_length p s : String.prefix p s = true -> (String.length p <= String.length s)%nat.
Proof.
  revert s. induction p as [|a p IH]; intros s; [simpl; lia|].
  destruct s as [|b s]; simpl; [discriminate|].
  destruct (ascii_dec a b); [|discriminate]. intros H. apply IH in H. lia.
Qed.

(** [split] does not see white space at either end. *)
Lemma split_from_rstrip w s : Py.split_from w (Py.rstrip s) = Py.split_from w s.
Proof.
  revert w. induction s as [|c s IH]; intros w; [reflexivity|].
  cbn [Py.rstrip]. destruct (Py.isspace c) eqn:Hc; cbn [andb].
  - destruct (Py.is_empty (Py.rstrip s)) eqn:He.
    + apply is_empty_true_eq in He. cbn [Py.split_from]. rewrite Hc.
      rewrite <- (IH EmptyString), He. simpl. destruct (Py.is_empty w); reflexivity.
    + cbn [Py.split_from]. rewrite Hc, (IH EmptyString). reflexivity.
  - cbn [Py.split_from]. rewrite Hc. apply IH.
Qed.

Lemma split_lstrip s : Py.split (Py.lstrip s) = Py.split s.
Proof.
  unfold Py.split. induction s as [|c s IH]; [reflexivity|].
  cbn [Py.lstrip Py.split_from]. destruct (Py.isspace c) eqn:Hc; [exact IH|].
  cbn [Py.split_from]. rewrite Hc. reflexivity.
Qed.

Lemma split_strip s : Py.split (Py.strip s) = Py.split s.
Proof. unfold Py.strip, Py.split. rewrite split_from_rstrip. apply split_lstrip. Qed.

Lemma split_empty : Py.split EmptyString = [].
Proof. reflexivity. Qed.

End Normalisers.

(** X10. [normalize_phone] is idempotent: normalising a normalised number
    changes nothing.  A result is never ten characters long and never
    starts with "00". *)
Theorem normalize_phone_idempotent (phone : option string) :
  normalize_phone (normalize_phone phone) = normalize_phone phone
  ∧ ∀ out, normalize_phone phone = Some out ->
      String.length out ≠ 10%nat ∧ Py.startswith "00" out = false.
Proof.
  assert (Hshape : ∀ out, normalize_phone phone = Some out ->
            Py.all_chars phone_char out = true ∧ out ≠ EmptyString
            ∧ String.length out ≠ 10%nat ∧ Py.startswith "00" out = false).
  { intros out. destruct phone as [raw|]; [apply normalize_phone_shape|discriminate]. }
  split; [|intros out Hout; destruct (Hshape out Hout) as (_ & _ & ? & ?); auto].
  destruct (normalize_phone phone) as [out|] eqn:Hout; [|reflexivity].
  destruct (Hshape out eq_refl) as (Hchars & Hne & Hlen & H00).
  rewrite normalize_phone_cases, (filter_chars_id _ _ Hchars), H00.
  apply is_empty_false in Hne. rewrite Hne.
  by rewrite bool_decide_eq_false_2.
Qed.

(** X11. Whatever [urlparse] answers, a result of [normalize_website] starts
    with "http://" or "https://", holds no space, is in lower case and has
    at least seven characters. *)
Theorem normalize_website_shape
    (urlparse : string -> option (string * string)) (website : option string)
    (out : string) :
  normalize_website urlparse website = Some out ->
  Py.startswith "http://" out || Py.startswith "https://" out = true
  ∧ Py.has_char " "%char out = false
  ∧ Py.lower out = out
  ∧ (7 <= String.length out)%nat.
Proof.
  unfold normalize_website. destruct (negb (Py.truthy website)); [discriminate|].
  set (w := Py.strip (Py.or_empty website)).
  destruct ((Py.len w <? 4) || Py.has_char " "%char w) eqn:Hguard; [discriminate|].
  apply orb_false_iff in Hguard as [_ Hspace].
  destruct (Py.startswith "http://" w || Py.startswith "https://" w) eqn:Hpre;
    cbn [negb];
    match goal with |- context [urlparse ?u] => destruct (urlparse u) as [[scheme netloc]|] end;
    try discriminate;
    destruct (negb (Py.is_empty scheme) && negb (Py.is_empty netloc));
    try discriminate; intros [= <-].
  - split_and!.
    + apply orb_true_iff in Hpre as [H|H]; apply prefix_lower in H;
        unfold Py.startswith; change (Py.lower "http://") with "http://" in *;
        change (Py.lower "https://") with "https://" in *; rewrite H;
        [reflexivity | apply orb_true_r].
    + by rewrite has_space_lower.
    + apply lower_idem.
    + rewrite length_lower.
      apply orb_true_iff in Hpre as [H|H]; apply prefix_length in H; simpl in H; lia.
  - split_and!.
    + change (Py.startswith "http://" ("https://" ++ Py.lower w)
              || Py.startswith "https://" ("https://" ++ Py.lower w) = true).
      unfold Py.startswith. rewrite (prefix_app "https://"). apply orb_true_r.
    + change (Py.has_char " "%char (Py.lower w) = false).
      by rewrite has_space_lower.
    + change (Py.lower (Py.lower ("https://" ++ w)) = Py.lower ("https://" ++ w)).
      apply lower_idem.
    + change (7 <= String.length (Py.lower ("https://" ++ w)))%nat.
      rewrite length_lower. simpl. lia.
Qed.

Lemma normalize_website_shape_witness :
  Py.has_char " "%char "https://example.com" = false.
Proof.
  apply (normalize_website_shape
           (fun _ => Some ("https", "example.com")) (Some "Example.COM")
           "https://example.com").
  reflexivity.
Defined.

(** X12. [clean_business_name] reads its input only through its words: two
    names that split into the same words at white space are cleaned to the
    same result. *)
Theorem clean_business_name_words (s1 s2 : string) :
  Py.split s1 = Py.split s2 ->
  clean_business_name (Some s1) = clean_business_name (Some s2).
Proof.
  assert (Hwords : ∀ s,
    clean_business_name (Some s)
    = let t := Py.join " " (Py.split s) in
      if Py.is_empty t then None
      else
        let t := Re.sub (group_pattern "(" ")") t in
        let t := Re.sub (group_pattern "[" "]") t in
        let t := Py.strip (Py.remove_char single_quote
                             (Py.remove_char double_quote t)) in
        if Py.is_empty t then None else Some t).
  { intros s. unfold clean_business_name.
    destruct s as [|c s]; [reflexivity|].
    change (negb (Py.truthy (Some (String c s)))) with false. cbv iota.
    change (Py.or_empty (Some (String c s))) with (String c s).
    rewrite split_strip. reflexivity. }
  intros Heq. rewrite !Hwords, Heq. reflexivity.
Qed.

Lemma clean_business_name_words_witness :
  clean_business_name (Some "  Joe's   Cafe (Closed) ")
  = clean_business_name (Some "Joe's Cafe (Closed)").
Proof.
  apply (clean_business_name_words "  Joe's   Cafe (Closed) " "Joe's Cafe (Closed)").
  vm_compute. reflexivity.
Defined.

(** * Record extraction *)

Section Extraction.

Context (urlparse : string -> option (string * string)).

Lemma put_if_lookup k v d k' v' :
  put_if k v d !! k' = Some v' ->
  (k' = k ∧ v = Some v' ∧ v' ≠ EmptyString) ∨ d !! k' = Some v'.
Proof.
  unfold put_if. destruct (Py.truthy v) eqn:Hv; [|auto].
  destruct (decide (k = k')) as [->|Hne].
  - rewrite lookup_insert_eq. intros [= <-]. left.
    destruct v as [[|c s]|]; try discriminate Hv. split_and!; [reflexivity..|discriminate].
  - rewrite lookup_insert_ne by assumption. auto.
Qed.

Lemma dict_or_none_cases d :
  dict_or_none d = None ∨ (dict_or_none d = Some d ∧ dict_truthy (Some d) = true).
Proof.
  unfold dict_or_none, dict_truthy. destruct (bool_decide (d = ∅)); auto.
Qed.

Lemma truthy_false_clean v : Py.truthy v = false -> clean_business_name v = None.
Proof. unfold clean_business_name. by intros ->. Qed.

Lemma or_else_falsy a b :
  Py.truthy a = false -> Py.truthy b = false -> Py.truthy (Py.or_else a b) = false.
Proof. unfold Py.or_else. intros Ha Hb. by rewrite Ha. Qed.

Lemma or_else_truthy a b :
  Py.truthy b = true -> Py.truthy (Py.or_else a b) = true.
Proof. unfold Py.or_else. intros Hb. destruct (Py.truthy a) eqn:Ha; assumption. Qed.

End Extraction.

(** X13. A record produced by the extraction loop has a name or a brand; its
    contact and address mappings are absent or non-empty, hold only their
    own keys and no empty value; a phone in it consists of digits and [+]
    signs; its category is non-empty when the requested category is; and its
    source id is the element kind, an underscore and the element id
    ("unknown" without id). *)
Theorem extract_record
    (urlparse : string -> option (string * string)) (niche : string)
    (element : Element) (b : Business) :
  extract urlparse niche element = Some b ->
  Py.truthy (name b) || Py.truthy (brand b) = true
  ∧ (contact b = None ∨ dict_truthy (contact b) = true)
  ∧ (address b = None ∨ dict_truthy (address b) = true)
  ∧ (∀ m k v, contact b = Some m -> m !! k = Some v ->
       k ∈ contact_fields ∧ v ≠ EmptyString)
  ∧ (∀ m k v, address b = Some m -> m !! k = Some v ->
       k ∈ address_fields ∧ v ≠ EmptyString)
  ∧ (∀ m v, contact b = Some m -> m !! "phone" = Some v ->
       Py.all_chars phone_char v = true)
  ∧ (niche ≠ EmptyString -> Py.truthy (category b) = true)
  ∧ source_id b
    = Some (el_type element ++ "_"
            ++ match el_id element with
               | Some i => Py.str_of_int i
               | None => "unknown"
               end).
Proof.
  unfold extract. cbv zeta.
  destruct (negb _ && negb _ && negb _ && negb _); [discriminate|].
  match goal with
  | |- (if ?c then _ else _) = _ -> _ => destruct c eqn:Hnb; [|discriminate]
  end.
  intros [= <-]. cbn [name brand contact address category source_id] in *.
  split_and!.
  - exact Hnb.
  - match goal with |- dict_or_none ?d = None ∨ _ =>
      destruct (dict_or_none_cases d) as [->|[-> ?]]; auto end.
  - match goal with |- dict_or_none ?d = None ∨ _ =>
      destruct (dict_or_none_cases d) as [->|[-> ?]]; auto end.
  - intros m k v Hm Hk.
    match type of Hm with dict_or_none ?d = _ =>
      destruct (dict_or_none_cases d) as [Hd|[Hd _]]; rewrite Hd in Hm end;
      [discriminate|]. injection Hm as <-.
    unfold contact_fields.
    repeat (apply put_if_lookup in Hk as [(-> & _ & Hv)|Hk];
            [split; [apply list_elem_of_In; simpl; tauto | exact Hv]|]).
    rewrite lookup_empty in Hk. discriminate.
  - intros m k v Hm Hk.
    match type of Hm with dict_or_none ?d = _ =>
      destruct (dict_or_none_cases d) as [Hd|[Hd _]]; rewrite Hd in Hm end;
      [discriminate|]. injection Hm as <-.
    unfold address_fields.
    repeat (apply put_if_lookup in Hk as [(-> & _ & Hv)|Hk];
            [split; [apply list_elem_of_In; simpl; tauto | exact Hv]|]).
    rewrite lookup_empty in Hk. discriminate.
  - intros m v Hm Hk.
    match type of Hm with dict_or_none ?d = _ =>
      destruct (dict_or_none_cases d) as [Hd|[Hd _]]; rewrite Hd in Hm end;
      [discriminate|]. injection Hm as <-.
    repeat (apply put_if_lookup in Hk as [(Hkey & Hph & _)|Hk];
            [try discriminate Hkey|]).
    + match type of Hph with normalize_phone ?p = _ => destruct p as [raw|] end;
        [|discriminate]. by apply normalize_phone_shape in Hph as [? _].
    + rewrite lookup_empty in Hk. discriminate.
  - intros Hniche. apply or_else_truthy. simpl. by apply negb_true_iff, is_empty_false.
  - reflexivity.
Qed.

Lemma extract_record_witness :
  Py.truthy (name bank_phone) || Py.truthy (brand bank_phone) = true
  ∧ (contact bank_phone = None ∨ dict_truthy (contact bank_phone) = true).
Proof.
  pose proof (extract_record urlparse_stub "bank" bank_element_phone bank_phone) as H.
  assert (Hex : extract urlparse_stub "bank" bank_element_phone = Some bank_phone)
    by (vm_compute; reflexivity).
  destruct (H Hex) as (H1 & H2 & _). split; assumption.
Defined.

(** X14. The extraction loop yields a record exactly when the cleaned name
    (taken from the name, brand or operator tag) or the cleaned brand is
    non-empty.  An element whose name, brand and operator tags are all
    missing or empty yields none, whatever contact and address tags it
    carries. *)
Theorem extract_needs_name
    (urlparse : string -> option (string * string)) (niche : string)
    (element : Element) :
  let tag (k : string) : option string := default ∅ (el_tags element) !! k in
  (is_Some (extract urlparse niche element) <->
   Py.truthy (clean_business_name
                (Py.or_else (Py.or_else (tag "name") (tag "brand")) (tag "operator")))
   || Py.truthy (clean_business_name (tag "brand")) = true)
  ∧ (Py.truthy (tag "name") = false -> Py.truthy (tag "brand") = false ->
     Py.truthy (tag "operator") = false ->
     extract urlparse niche element = None).
Proof.
  intros tag.
  assert (Hnone : Py.truthy (tag "name") = false -> Py.truthy (tag "brand") = false ->
                  Py.truthy (tag "operator") = false ->
                  Py.truthy (clean_business_name
                     (Py.or_else (Py.or_else (tag "name") (tag "brand")) (tag "operator")))
                  || Py.truthy (clean_business_name (tag "brand")) = false).
  { intros Hn Hb Ho.
    rewrite (truthy_false_clean (tag "brand")) by assumption.
    rewrite truthy_false_clean; [reflexivity|].
    apply or_else_falsy; [apply or_else_falsy|]; assumption. }
  assert (Hiff : is_Some (extract urlparse niche element) <->
    Py.truthy (clean_business_name
                 (Py.or_else (Py.or_else (tag "name") (tag "brand")) (tag "operator")))
    || Py.truthy (clean_business_name (tag "brand")) = true).
  { unfold extract. cbv zeta. subst tag. cbv beta in *.
    match goal with
    | |- is_Some (if ?c then None else _) <-> _ => destruct c eqn:Hguard
    end.
    - apply andb_true_iff in Hguard as [Hguard _].
      apply andb_true_iff in Hguard as [Hguard Ho].
      apply andb_true_iff in Hguard as [Hn Hb].
      apply negb_true_iff in Hn, Hb, Ho.
      rewrite (Hnone Hn Hb Ho).
      split; [intros [? H]; discriminate H | discriminate].
    - cbn [name brand].
      destruct (Py.truthy (clean_business_name _) || Py.truthy (clean_business_name _)).
      + split; [reflexivity | by eexists].
      + split; [intros [? H]; discriminate H | discriminate]. }
  split; [exact Hiff|].
  intros Hn Hb Ho. specialize (Hnone Hn Hb Ho).
  destruct (extract urlparse niche element) eqn:He; [|reflexivity].
  destruct Hiff as [Hiff _]. rewrite Hnone in Hiff.
  discriminate (Hiff (mk_is_Some _ _ eq_refl)).
Qed.

Lemma extract_needs_name_witness :
  extract urlparse_stub "bank"
    (mkElement "node" (Some 7)
       (Some {[ "phone" := "9876543210"; "addr:city" := "Pune" ]}) None None None)
  = None.
Proof.
  apply (proj2 (extract_needs_name urlparse_stub "bank"
          (mkElement "node" (Some 7)
             (Some {[ "phone" := "9876543210"; "addr:city" := "Pune" ]})
             None None None))); reflexivity.
Defined.

(** * Serialisation *)

Section Serialisation.

(** Reading a key back from a serialised record gives the field. *)
Lemma to_dict_lookup (b : Business) :
  dict_lookup "name" (to_dict b) = VStr <$> name b
  ∧ dict_lookup "category" (to_dict b) = VStr <$> category b
  ∧ dict_lookup "brand" (to_dict b) = VStr <$> brand b
  ∧ dict_lookup "contact" (to_dict b) = VDict <$> contact b
  ∧ dict_lookup "opening_hours" (to_dict b) = VStr <$> opening_hours b
  ∧ dict_lookup "address" (to_dict b) = VDict <$> address b
  ∧ dict_lookup "latitude" (to_dict b) = VFloat <$> latitude b
  ∧ dict_lookup "longitude" (to_dict b) = VFloat <$> longitude b
  ∧ dict_lookup "source_id" (to_dict b) = VStr <$> source_id b.
Proof.
  destruct b as [[n|] [c|] [br|] [ct|] [oh|] [ad|] [la|] [lo|] [si|]];
    repeat split.
Qed.

Lemma fmap_Some_inj {A B} (f : A -> B) (x y : option A) :
  (∀ a a', f a = f a' -> a = a') -> f <$> x = f <$> y -> x = y.
Proof.
  intros Hinj. destruct x, y; simpl; intros H; try discriminate; [|reflexivity].
  injection H as H. by rewrite (Hinj _ _ H).
Qed.

End Serialisation.

(** X15. Serialising a record loses nothing: every key of the dictionary
    reads back the field it was made from, a key being absent exactly when
    the field is null, and two records with the same dictionary are the same
    record. *)
Theorem to_dict_lossless (b : Business) :
  (dict_lookup "name" (to_dict b) = VStr <$> name b
   ∧ dict_lookup "category" (to_dict b) = VStr <$> category b
   ∧ dict_lookup "brand" (to_dict b) = VStr <$> brand b
   ∧ dict_lookup "contact" (to_dict b) = VDict <$> contact b
   ∧ dict_lookup "opening_hours" (to_dict b) = VStr <$> opening_hours b
   ∧ dict_lookup "address" (to_dict b) = VDict <$> address b
   ∧ dict_lookup "latitude" (to_dict b) = VFloat <$> latitude b
   ∧ dict_lookup "longitude" (to_dict b) = VFloat <$> longitude b
   ∧ dict_lookup "source_id" (to_dict b) = VStr <$> source_id b)
  ∧ ∀ b', to_dict b' = to_dict b -> b' = b.
Proof.
  split; [apply to_dict_lookup|].
  intros b' Heq.
  destruct (to_dict_lookup b) as (H1 & H2 & H3 & H4 & H5 & H6 & H7 & H8 & H9).
  destruct (to_dict_lookup b') as (H1' & H2' & H3' & H4' & H5' & H6' & H7' & H8' & H9').
  rewrite Heq in *.
  rewrite H1 in H1'. rewrite H2 in H2'. rewrite H3 in H3'. rewrite H4 in H4'.
  rewrite H5 in H5'. rewrite H6 in H6'. rewrite H7 in H7'. rewrite H8 in H8'.
  rewrite H9 in H9'.
  apply fmap_Some_inj in H1', H2', H3', H4', H5', H6', H7', H8', H9';
    try (intros ? ? [= ->]; reflexivity).
  destruct b, b'; simpl in *. congruence.
Qed.

Lemma to_dict_lossless_witness :
  to_dict bank_phone = to_dict bank_phone ∧ bank_phone = bank_phone.
Proof.
  split; [reflexivity|].
  apply (proj2 (to_dict_lossless bank_phone) bank_phone). reflexivity.
Defined.

(** * The answer of [get_businesses] *)

Section Sorting.

Lemma ascii_compare_eq a b : Ascii.compare a b = Eq -> a = b.
Proof. apply Ascii.compare_eq_iff. Qed.

Lemma string_compare_refl s : String.compare s s = Eq.
Proof.
  induction s as [|c s IH]; [reflexivity|]. simpl.
  unfold Ascii.compare. by rewrite N.compare_refl.
Qed.

(** The order of strings is total: what is below [a] is below [b], or [b]
    is below [a]. *)
Lemma string_compare_split (c a b : string) :
  String.compare c a = Lt -> String.compare c b = Lt ∨ String.compare b a = Lt.
Proof.
  revert a b. induction c as [|x c IH]; intros [|y a] [|z b]; simpl; try discriminate; auto.
  unfold Ascii.compare.
  destruct (N.compare_spec (N_of_ascii x) (N_of_ascii y)) as [Hxy|Hxy|Hxy];
    destruct (N.compare_spec (N_of_ascii x) (N_of_ascii z)) as [Hxz|Hxz|Hxz];
    destruct (N.compare_spec (N_of_ascii z) (N_of_ascii y)) as [Hzy|Hzy|Hzy];
    try discriminate; auto; try lia.
Qed.

Lemma ltb_false_trans (a b c : string) :
  String.ltb b a = false -> String.ltb c b = false -> String.ltb c a = false.
Proof.
  unfold String.ltb. intros Hba Hcb.
  destruct (String.compare c a) eqn:Hca; try reflexivity.
  destruct (string_compare_split c a b Hca) as [H|H]; rewrite H in *; discriminate.
Qed.

Lemma ltb_irrefl s : String.ltb s s = false.
Proof. unfold String.ltb. by rewrite string_compare_refl. Qed.

Lemma ltb_asym a b : String.ltb a b = true -> String.ltb b a = false.
Proof.
  unfold String.ltb. rewrite (String.compare_antisym b a).
  destruct (String.compare a b); simpl; congruence.
Qed.

Context {A : Type} (key : A -> string).

Definition key_le (a b : A) : Prop := String.ltb (key b) (key a) = false.

Lemma insert_by_perm x l : insert_by key x l ≡ₚ x :: l.
Proof.
  induction l as [|y l IH]; [reflexivity|]. simpl.
  destruct (String.ltb (key y) (key x)); [|reflexivity].
  rewrite IH. apply Permutation_swap.
Qed.

Lemma sort_by_perm l : sort_by key l ≡ₚ l.
Proof.
  induction l as [|x l IH]; [reflexivity|]. simpl.
  rewrite insert_by_perm. by constructor.
Qed.

Lemma insert_by_sorted x l :
  StronglySorted key_le l -> StronglySorted key_le (insert_by key x l).
Proof.
  induction 1 as [|y l Hss IH Hall]; simpl; [repeat constructor|].
  destruct (String.ltb (key y) (key x)) eqn:Hyx.
  - constructor; [assumption|].
    rewrite insert_by_perm. constructor; [|assumption].
    unfold key_le. by apply ltb_asym.
  - constructor; [by constructor|]. constructor; [exact Hyx|].
    rewrite Forall_forall in *. intros z Hz. unfold key_le in *.
    eapply ltb_false_trans; [exact Hyx | by apply Hall].
Qed.

Lemma sort_by_sorted l : StronglySorted key_le (sort_by key l).
Proof.
  induction l as [|x l IH]; [constructor|]. simpl. by apply insert_by_sorted.
Qed.

(** The sort is stable: the elements of one key keep their order. *)
Lemma insert_by_filter k x l :
  filter (fun a => key a = k) (insert_by key x l)
  = filter (fun a => key a = k) (x :: l).
Proof.
  induction l as [|y l IH]; [reflexivity|]. simpl.
  destruct (String.ltb (key y) (key x)) eqn:Hyx; [|reflexivity].
  rewrite !filter_cons, IH, !filter_cons.
  destruct (decide (key y = k)) as [Hy|Hy], (decide (key x = k)) as [Hx|Hx];
    try reflexivity.
  rewrite Hy, Hx, ltb_irrefl in Hyx. discriminate.
Qed.

Lemma sort_by_filter k l :
  filter (fun a => key a = k) (sort_by key l) = filter (fun a => key a = k) l.
Proof.
  induction l as [|x l IH]; [reflexivity|]. simpl.
  rewrite insert_by_filter, !filter_cons, IH. reflexivity.
Qed.

End Sorting.

Section Requests.

Context (net : nat -> reply) (query : string).

Local Open Scope list_scope.

Lemma pause_range (t : Z) (pauses : list Z) :
  1 <= t <= 90 -> Forall (fun t => 1 <= t <= 90) pauses ->
  Forall (fun t => 1 <= t <= 90) (t :: pauses).
Proof. by constructor. Qed.

(** What a call leaves in the world: the query posted once per attempt and
    one pause between two attempts. *)
Lemma make_overpass_request_trace (retry_count : Z) (w : world) :
  0 <= retry_count <= MAX_RETRIES ->
  ∃ (k : nat) (pauses : list Z),
    (1 <= k)%nat ∧ Z.of_nat k <= MAX_RETRIES + 1 - retry_count
    ∧ posts (make_overpass_request net query retry_count w).2
      = posts w ++ replicate k query
    ∧ sleeps (make_overpass_request net query retry_count w).2
      = sleeps w ++ pauses
    ∧ length pauses = (k - 1)%nat
    ∧ Forall (fun t => 1 <= t <= 90) pauses.
Proof.
  intros Hrc.
  funelim (make_overpass_request net query retry_count w).
  all: try match goal with
       | IH : _ -> ∃ k pauses, _ |- _ =>
           destruct (IH ltac:(unfold MAX_RETRIES in *; lia))
             as (k & pauses & Hk1 & Hk & Hposts & Hsleeps & Hlen & Hrange);
           exists (S k);
           match type of Hsleeps with
           | _ = sleeps (sleep ?t _) ++ _ => exists (t :: pauses)
           end;
           split_and!;
           [ lia
           | unfold MAX_RETRIES in *; lia
           | rewrite Hposts; simpl; by rewrite <- app_assoc
           | rewrite Hsleeps; simpl; by rewrite <- app_assoc
           | simpl; lia
           | apply pause_range; [|assumption];
             unfold MAX_RETRIES in *;
             try lia;
             assert (retry_count = 0 ∨ retry_count = 1 ∨ retry_count = 2) as Hc by lia;
             destruct Hc as [-> | [-> | ->]]; simpl; lia ]
       end.
  all: exists 1%nat, []; split_and!;
    [ lia | unfold MAX_RETRIES in *; lia | reflexivity
    | simpl; by rewrite app_nil_r | reflexivity | constructor ].
Qed.

(** A call returns the first answer among its attempts. *)
Lemma answer_here (n : nat) (data data' : option (list Element)) (bound : Z) :
  0 <= bound -> net n = ReplyJson data ->
  Return data = Return data'
  <-> ∃ k : nat,
        Z.of_nat k <= bound
        ∧ net (n + k)%nat = ReplyJson data'
        ∧ ∀ i : nat, (i < k)%nat -> is_failure (net (n + i)%nat) = true.
Proof.
  intros Hb Hnet. split.
  - intros [= <-]. exists 0%nat. rewrite Nat.add_0_r.
    split_and!; [lia | assumption | intros i Hi; lia].
  - intros ([|k] & _ & Hk & Hfail).
    + rewrite Nat.add_0_r, Hnet in Hk. by injection Hk as ->.
    + specialize (Hfail 0%nat ltac:(lia)). rewrite Nat.add_0_r, Hnet in Hfail.
      discriminate Hfail.
Qed.

Lemma answer_never (n : nat) (e : exn) (data' : option (list Element)) :
  is_failure (net n) = true ->
  @Raise (option (list Element)) e = Return data'
  <-> ∃ k : nat,
        Z.of_nat k <= 0
        ∧ net (n + k)%nat = ReplyJson data'
        ∧ ∀ i : nat, (i < k)%nat -> is_failure (net (n + i)%nat) = true.
Proof.
  intros Hnet. split; [discriminate|].
  intros (k & Hk & Hjson & _). assert (k = 0%nat) as -> by lia.
  rewrite Nat.add_0_r in Hjson. rewrite Hjson in Hnet. discriminate Hnet.
Qed.

Lemma answer_later (n : nat) (r : result (option (list Element)))
    (data' : option (list Element)) (bound : Z) :
  is_failure (net n) = true ->
  (r = Return data'
   <-> ∃ k : nat,
         Z.of_nat k <= bound - 1
         ∧ net (S n + k)%nat = ReplyJson data'
         ∧ ∀ i : nat, (i < k)%nat -> is_failure (net (S n + i)%nat) = true) ->
  r = Return data'
  <-> ∃ k : nat,
        Z.of_nat k <= bound
        ∧ net (n + k)%nat = ReplyJson data'
        ∧ ∀ i : nat, (i < k)%nat -> is_failure (net (n + i)%nat) = true.
Proof.
  intros Hnet ->. split.
  - intros (k & Hk & Hjson & Hfail). exists (S k). split_and!; [lia | |].
    + by replace (n + S k)%nat with (S n + k)%nat by lia.
    + intros [|i] Hi; [by rewrite Nat.add_0_r|].
      replace (n + S i)%nat with (S n + i)%nat by lia. apply Hfail. lia.
  - intros ([|k] & Hk & Hjson & Hfail).
    + rewrite Nat.add_0_r in Hjson. rewrite Hjson in Hnet. discriminate Hnet.
    + exists k. split_and!; [lia | |].
      * by replace (S n + k)%nat with (n + S k)%nat by lia.
      * intros i Hi. replace (S n + i)%nat with (n + S i)%nat by lia.
        apply Hfail. lia.
Qed.

Lemma make_overpass_request_answer (retry_count : Z) (w : world) data :
  0 <= retry_count <= MAX_RETRIES ->
  (make_overpass_request net query retry_count w).1 = Return data
  <-> ∃ k : nat,
        Z.of_nat k <= MAX_RETRIES - retry_count
        ∧ net (length (posts w) + k)%nat = ReplyJson data
        ∧ ∀ i : nat, (i < k)%nat -> is_failure (net (length (posts w) + i)%nat) = true.
Proof.
  intros Hrc.
  funelim (make_overpass_request net query retry_count w); simpl.
  - apply answer_here; [lia | assumption].
  - apply answer_later; [by rewrite Heq0|].
    replace (MAX_RETRIES - retry_count - 1) with (MAX_RETRIES - (retry_count + 1)) by lia.
    rewrite <- (posts_post query w). apply H. lia.
  - replace (MAX_RETRIES - retry_count) with 0 by lia.
    apply answer_never. by rewrite Heq0.
  - apply answer_later; [by rewrite Heq0|].
    replace (MAX_RETRIES - retry_count - 1) with (MAX_RETRIES - (retry_count + 1)) by lia.
    rewrite <- (posts_post query w). apply H. lia.
  - replace (MAX_RETRIES - retry_count) with 0 by lia.
    apply answer_never. by rewrite Heq0.
  - apply answer_later; [by rewrite Heq0|].
    replace (MAX_RETRIES - retry_count - 1) with (MAX_RETRIES - (retry_count + 1)) by lia.
    rewrite <- (posts_post query w). apply H. lia.
  - replace (MAX_RETRIES - retry_count) with 0 by lia.
    apply answer_never. by rewrite Heq0.
Qed.

End Requests.

Section Answer.

Local Open Scope list_scope.

Lemma length_omap_le {A B} (f : A -> option B) (l : list A) :
  (length (omap f l) <= length l)%nat.
Proof.
  induction l as [|x l IH]; [reflexivity|].
  change (omap f (x :: l))
    with (match f x with Some y => y :: omap f l | None => omap f l end).
  destruct (f x); cbn [length]; lia.
Qed.

Lemma posts_of_print l w : posts (print l w) = posts w.
Proof. reflexivity. Qed.

Lemma not_failure_json (r : reply) :
  is_failure r = false -> ∃ data, r = ReplyJson data.
Proof. destruct r; try discriminate. eauto. Qed.

(** When the fetch raises, each of its four attempts has failed. *)
Lemma make_overpass_request_raises (net : nat -> reply) (query : string)
    (w : world) (e : exn) :
  (make_overpass_request net query 0 w).1 = Raise e ->
  ∀ i : nat, (i <= 3)%nat -> is_failure (net (length (posts w) + i)%nat) = true.
Proof.
  intros Hraise.
  assert (Hstep : ∀ k : nat, (k <= 3)%nat ->
            (∀ i : nat, (i < k)%nat ->
                        is_failure (net (length (posts w) + i)%nat) = true) ->
            is_failure (net (length (posts w) + k)%nat) = true).
  { intros k Hk Hbefore.
    destruct (is_failure (net (length (posts w) + k)%nat)) eqn:Hf; [reflexivity|].
    destruct (not_failure_json _ Hf) as [data Hjson].
    assert ((make_overpass_request net query 0 w).1 = Return data) as Hret.
    { apply make_overpass_request_answer; [unfold MAX_RETRIES; lia|].
      exists k. split_and!; [unfold MAX_RETRIES; lia | assumption | assumption]. }
    rewrite Hret in Hraise. discriminate Hraise. }
  assert (H0 := Hstep 0%nat ltac:(lia) ltac:(intros i Hi; lia)).
  assert (H1 := Hstep 1%nat ltac:(lia)
                  ltac:(intros i Hi; assert (i = 0%nat) as -> by lia; exact H0)).
  assert (H2 : is_failure (net (length (posts w) + 2)%nat) = true).
  { apply Hstep; [lia|]. intros i Hi.
    assert (i = 0 ∨ i = 1)%nat as [-> | ->] by lia; assumption. }
  assert (H3 : is_failure (net (length (posts w) + 3)%nat) = true).
  { apply Hstep; [lia|]. intros i Hi.
    assert (i = 0 ∨ i = 1 ∨ i = 2)%nat as [-> | [-> | ->]] by lia; assumption. }
  intros i Hi.
  assert (i = 0 ∨ i = 1 ∨ i = 2 ∨ i = 3)%nat as [-> | [-> | [-> | ->]]] by lia;
    assumption.
Qed.

End Answer.

(** X16. Every answer of [get_businesses] is decided by the replies to its
    fetch.  When all four attempts fail the answer is empty.  Otherwise it is
    the serialisation of the records extracted from the first answered
    attempt, deduplicated and sorted: the records are a rearrangement of the
    deduplicated candidates, all valid and with pairwise different identity
    hashes, in ascending order of lowercased name, the records of one
    lowercased name keeping the order that deduplication gave them. *)
Theorem get_businesses_answer
    (float_repr : float -> string) (urlparse : string -> option (string * string))
    (net : nat -> reply) (lat lon radius_km : float_arg) (niche : string)
    (w w' : world) (results : list (list (string * pyval))) :
  get_businesses float_repr urlparse net lat lon radius_km niche w
  = (Return results, w') ->
  (results = []
   ∧ ∀ i : nat, (i <= 3)%nat -> is_failure (net (length (posts w) + i)%nat) = true)
  ∨ ∃ (k : nat) data (l : list Business),
      (k <= 3)%nat
      ∧ net (length (posts w) + k)%nat = ReplyJson data
      ∧ (∀ i : nat, (i < k)%nat -> is_failure (net (length (posts w) + i)%nat) = true)
      ∧ let candidates :=
          omap (extract urlparse (Py.lower (Py.strip niche))) (default [] data) in
        results = to_dict <$> l
        ∧ l ≡ₚ deduplicate_businesses candidates
        ∧ Forall (fun b => is_valid b = true) l
        ∧ NoDup (get_hash_id <$> l)
        ∧ StronglySorted name_le l
        ∧ ∀ n, filter (fun b => lower_name b = n) l
               = filter (fun b => lower_name b = n) (deduplicate_businesses candidates).
Proof.
  unfold get_businesses.
  destruct (convert_inputs lat lon radius_km) as [[[la lo] r]|e]; [|discriminate].
  destruct (Py.is_empty niche || Py.is_empty (Py.strip niche)); [discriminate|].
  destruct (PrimFloat.leb r 0 || PrimFloat.ltb 50 r); [discriminate|].
  destruct (int_of_float (PrimFloat.mul r 1000)) as [meters|e]; [|discriminate].
  destruct (make_overpass_request _ _ _ _) as [[data|e] w1] eqn:Hreq;
    intros [= <- <-].
  - right.
    match type of Hreq with make_overpass_request _ ?q _ _ = _ =>
      pose proof (proj1 (make_overpass_request_answer net q 0 w data
                           ltac:(unfold MAX_RETRIES; lia))) as Hans
    end.
    rewrite Hreq in Hans. destruct (Hans eq_refl) as (k & Hk & Hjson & Hfail).
    set (raw := omap (extract urlparse (Py.lower (Py.strip niche))) (default [] data)).
    exists k, data, (sort_by lower_name (deduplicate_businesses raw)).
    split; [unfold MAX_RETRIES in Hk; lia|].
    split; [assumption|]. split; [assumption|].
    cbv zeta. fold raw. split_and!.
    + reflexivity.
    + apply sort_by_perm.
    + rewrite sort_by_perm. apply (chain_valid [] _ (deduplicate_chain raw)).
    + rewrite sort_by_perm.
      apply (chain_hashes [] _ (deduplicate_chain raw)). constructor.
    + apply (sort_by_sorted lower_name).
    + intros n. apply (sort_by_filter lower_name).
  - left. split; [reflexivity|].
    match type of Hreq with make_overpass_request _ ?q _ _ = _ =>
      apply (make_overpass_request_raises net q w e); by rewrite Hreq
    end.
Qed.

Lemma get_businesses_answer_witness :
  ([to_dict bank_plain] = []
   ∧ ∀ i : nat, (i <= 3)%nat ->
       is_failure ((fun _ : nat =>
                      ReplyJson (Some [bank_element_plain; bank_element_phone]))
                     (length (posts world0) + i)%nat) = true)
  ∨ ∃ (k : nat) data (l : list Business),
      (k <= 3)%nat
      ∧ (fun _ : nat => ReplyJson (Some [bank_element_plain; bank_element_phone]))
          (length (posts world0) + k)%nat = ReplyJson data
      ∧ (∀ i : nat, (i < k)%nat ->
           is_failure ((fun _ : nat =>
                          ReplyJson (Some [bank_element_plain; bank_element_phone]))
                         (length (posts world0) + i)%nat) = true)
      ∧ let candidates :=
          omap (extract urlparse_stub (Py.lower (Py.strip "bank"))) (default [] data) in
        [to_dict bank_plain] = to_dict <$> l
        ∧ l ≡ₚ deduplicate_businesses candidates
        ∧ Forall (fun b => is_valid b = true) l
        ∧ NoDup (get_hash_id <$> l)
        ∧ StronglySorted name_le l
        ∧ ∀ n, filter (fun b => lower_name b = n) l
               = filter (fun b => lower_name b = n) (deduplicate_businesses candidates).
Proof.
  apply (get_businesses_answer repr_stub urlparse_stub
           (fun _ => ReplyJson (Some [bank_element_plain; bank_element_phone]))
           (FloatOk 18.5) (FloatOk 73.75) (FloatOk 2) "bank" world0
           (get_businesses repr_stub urlparse_stub
              (fun _ => ReplyJson (Some [bank_element_plain; bank_element_phone]))
              (FloatOk 18.5) (FloatOk 73.75) (FloatOk 2) "bank" world0).2).
  vm_compute. reflexivity.
Defined.

(** X17. An answer of [get_businesses] is empty or comes from the first
    answered attempt of the fetch, one of the first four, and it holds at
    most as many records as that answer holds elements. *)
Theorem get_businesses_count
    (float_repr : float -> string) (urlparse : string -> option (string * string))
    (net : nat -> reply) (lat lon radius_km : float_arg) (niche : string)
    (w w' : world) (results : list (list (string * pyval))) :
  get_businesses float_repr urlparse net lat lon radius_km niche w
  = (Return results, w') ->
  results = []
  ∨ ∃ (k : nat) data,
      (k <= 3)%nat
      ∧ net (length (posts w) + k)%nat = ReplyJson data
      ∧ (∀ i : nat, (i < k)%nat -> is_failure (net (length (posts w) + i)%nat) = true)
      ∧ (length results <= length (default [] data))%nat.
Proof.
  unfold get_businesses.
  destruct (convert_inputs lat lon radius_km) as [[[la lo] r]|e]; [|discriminate].
  destruct (Py.is_empty niche || Py.is_empty (Py.strip niche)); [discriminate|].
  destruct (PrimFloat.leb r 0 || PrimFloat.ltb 50 r); [discriminate|].
  destruct (int_of_float (PrimFloat.mul r 1000)) as [meters|e]; [|discriminate].
  destruct (make_overpass_request _ _ _ _) as [[data|e] w1] eqn:Hreq;
    intros [= <- <-]; [|by left].
  right.
  match type of Hreq with make_overpass_request _ ?q _ _ = _ =>
    pose proof (proj1 (make_overpass_request_answer net q 0 w data
                         ltac:(unfold MAX_RETRIES; lia))) as Hans
  end.
  rewrite Hreq in Hans. destruct (Hans eq_refl) as (k & Hk & Hjson & Hfail).
  exists k, data. split_and!; [unfold MAX_RETRIES in Hk; lia | assumption | assumption |].
  rewrite length_fmap, sort_by_perm.
  trans (length (omap (extract urlparse (Py.lower (Py.strip niche))) (default [] data)));
    [|apply length_omap_le].
  destruct (fold_dedup_sublist
              (omap (extract urlparse (Py.lower (Py.strip niche))) (default [] data))
              (mkDedup ∅ ∅ [])) as (ys & Hys & Hsub).
  unfold deduplicate_businesses. rewrite Hys. simpl. by apply sublist_length.
Qed.

Lemma get_businesses_count_witness :
  [to_dict bank_plain] = []
  ∨ ∃ (k : nat) data,
      (k <= 3)%nat
      ∧ (fun _ : nat => ReplyJson (Some [bank_element_plain; bank_element_phone]))
          (length (posts world0) + k)%nat = ReplyJson data
      ∧ (∀ i : nat, (i < k)%nat ->
           is_failure ((fun _ : nat =>
             ReplyJson (Some [bank_element_plain; bank_element_phone]))
               (length (posts world0) + i)%nat) = true)
      ∧ (length [to_dict bank_plain] <= length (default [] data))%nat.
Proof.
  apply (get_businesses_count repr_stub urlparse_stub
           (fun _ => ReplyJson (Some [bank_element_plain; bank_element_phone]))
           (FloatOk 18.5) (FloatOk 73.75) (FloatOk 2) "bank" world0
           (get_businesses repr_stub urlparse_stub
              (fun _ => ReplyJson (Some [bank_element_plain; bank_element_phone]))
              (FloatOk 18.5) (FloatOk 73.75) (FloatOk 2) "bank" world0).2).
  vm_compute. reflexivity.
Defined.


(** X19. [make_overpass_request] returns the first answer among its four
    attempts: it returns [data] exactly when one of the first four replies
    is the JSON answer [data] and every reply before it is a failure. *)
Theorem make_overpass_request_first_answer
    (net : nat -> reply) (query : string) (w : world)
    (data : option (list Element)) :
  (make_overpass_request net query 0 w).1 = Return data
  <-> ∃ k : nat,
        (k <= 3)%nat
        ∧ net (length (posts w) + k)%nat = ReplyJson data
        ∧ ∀ i : nat, (i < k)%nat -> is_failure (net (length (posts w) + i)%nat) = true.
Proof.
  rewrite (make_overpass_request_answer net query 0 w data)
    by (unfold MAX_RETRIES; lia).
  unfold MAX_RETRIES. split; intros (k & Hk & H); exists k; split; auto; lia.
Qed.

(** X21. The synonym table is idempotent: resolving a resolved category
    gives the same category again, for every requested category. *)
Theorem niche_mapping_idempotent (niche : string) :
  let amenity_filter := default niche (niche_mapping !! niche) in
  default amenity_filter (niche_mapping !! amenity_filter) = amenity_filter.
Proof.
  cbv zeta. destruct (niche_mapping !! niche) as [v|] eqn:Hn.
  - change (default niche (Some v)) with v.
    unfold niche_mapping in Hn. apply elem_of_list_to_map_2 in Hn.
    apply list_elem_of_In in Hn. cbn [In] in Hn.
    repeat (destruct Hn as [Hn|Hn]; [injection Hn as _ <-; vm_compute; reflexivity|]).
    contradiction.
  - change (default niche None) with niche. rewrite Hn. reflexivity.
Qed.

(** X22. Whatever it returns or raises, [get_businesses] posts at most four
    requests, all with the same query text, and removes nothing from what
    was posted before. *)
Theorem get_businesses_posts
    (float_repr : float -> string) (urlparse : string -> option (string * string))
    (net : nat -> reply) (lat lon radius_km : float_arg) (niche : string)
    (w : world) :
  ∃ (k : nat) (query : string),
    (k <= 4)%nat
    ∧ posts (get_businesses float_repr urlparse net lat lon radius_km niche w).2
      = (posts w ++ replicate k query)%list.
Proof.
  assert (Hnone : ∃ (k : nat) (query : string),
            (k <= 4)%nat ∧ posts w = (posts w ++ replicate k query)%list).
  { exists 0%nat, EmptyString. split; [lia | by rewrite app_nil_r]. }
  unfold get_businesses.
  destruct (convert_inputs lat lon radius_km) as [[[la lo] r]|e]; [|exact Hnone].
  destruct (Py.is_empty niche || Py.is_empty (Py.strip niche)); [exact Hnone|].
  destruct (PrimFloat.leb r 0 || PrimFloat.ltb 50 r); [exact Hnone|].
  destruct (int_of_float (PrimFloat.mul r 1000)) as [meters|e]; [|exact Hnone].
  match goal with |- context [make_overpass_request net ?q 0 w] =>
    destruct (make_overpass_request_trace net q 0 w ltac:(unfold MAX_RETRIES; lia))
      as (k & pauses & Hk1 & Hk & Hposts & _);
    exists k, q
  end.
  unfold MAX_RETRIES in Hk. split; [lia|].
  destruct (make_overpass_request _ _ _ _) as [[data|e] w1];
    cbn [snd] in Hposts; cbv beta iota; cbn [snd];
    rewrite posts_of_print; exact Hposts.
Qed.

Lemma normalize_phone_idempotent_witness :
  normalize_phone (Some "+919876543210") = Some "+919876543210"
  ∧ String.length "+919876543210" ≠ 10%nat.
Proof.
  split; [reflexivity|].
  apply (proj2 (normalize_phone_idempotent (Some "9876543210")) "+919876543210").
  reflexivity.
Defined.

Lemma make_overpass_request_first_answer_witness :
  ∃ k : nat,
    (k <= 3)%nat
    ∧ (fun n : nat => match n with O => ReplyTimeout | _ => ReplyJson (Some []) end)
        (length (posts world0) + k)%nat = ReplyJson (Some [])
    ∧ ∀ i : nat, (i < k)%nat ->
        is_failure ((fun n : nat =>
                       match n with O => ReplyTimeout | _ => ReplyJson (Some []) end)
                      (length (posts world0) + i)%nat) = true.
Proof.
  apply (proj1 (make_overpass_request_first_answer
                  (fun n => match n with O => ReplyTimeout | _ => ReplyJson (Some []) end)
                  "q" world0 (Some []))).
  vm_compute. reflexivity.
Defined.
